(** * Aquarius: the authorization-and-mutation engine of [aquarius/app/assets.py]

    A shallow embedding of the request handlers of the DDO registry
    ([register], [update], [transfer_ownership], [update_ratings],
    [add_access_white_list], [delete_access_white_list], [update_metadata],
    [retire], [retire_all]) together with their helpers, and the properties
    of the design document that concern them.

    - JSON payloads and stored documents are values of [json]; a Python
      [dict] is an association list in insertion order.
    - Python exceptions are explicit: a computation is a [flow], which goes
      on with a value, returns a response early, or raises.
    - The document store behind [dao] is a finite map from DID to document.
    - Collaborators that live outside the repository (the [datetime] parser,
      [Web3.isAddress], signature recovery, the plecos validator, the
      configuration file) are the fields of [externals]. *)

From Stdlib Require Import ZArith List String Ascii Bool Lia Permutation.
From Stdlib Require Import DecimalString.
From Stdlib Require Import Floats.SpecFloat.
From stdpp Require Import base option list strings gmap.

Set Warnings "-register-all".

Local Open Scope string_scope.
Local Open Scope Z_scope.
Local Open Scope list_scope.

(** ** JSON values *)

(** A binary64 number, as its sign, mantissa and exponent. *)
Abbreviation float64 := spec_float.

Inductive json : Type :=
| JNull
| JBool (b : bool)
| JInt (z : Z)
| JFloat (f : float64)
| JStr (s : string)
| JList (l : list json)
| JDict (d : list (string * json)).

(** ** Exceptions and control flow *)

Inductive exn : Type :=
| KeyError (k : json)
| IndexError
| TypeError
| AttributeError
| ValueError
| AssertionError
| StoreError.

(** What a handler hands back to the framework. *)
Inductive body : Type :=
| Text (s : string)
| Json (j : json)
| ErrorList (l : list (string * string))
| SomeError (e : exn).

Inductive reply : Type :=
| Reply (b : body) (status : Z)
| Bare (status : Z)
| Uncaught (e : exn).

(** A computation inside a handler: it goes on with a value, leaves the
    handler with a response ([return msg, status]), or raises. *)
Inductive flow (A : Type) : Type :=
| Go (a : A)
| Ret (r : reply)
| Exc (e : exn).
Arguments Go {A} a.
Arguments Ret {A} r.
Arguments Exc {A} e.

#[global] Instance flow_ret : MRet flow := fun A a => Go a.

#[global] Instance flow_bind : MBind flow := fun A B k m =>
  match m with
  | Go a => k a
  | Ret r => Ret r
  | Exc e => Exc e
  end.

(** [for x in xs: acc = body(acc, x)] *)
Fixpoint for_each {A S} (xs : list A) (acc : S) (f : S -> A -> flow S) : flow S :=
  match xs with
  | [] => Go acc
  | x :: rest => acc' ← f acc x; for_each rest acc' f
  end.

(** [[f(x) for x in xs]], the elements rewritten one after the other. *)
Fixpoint map_each {A B} (f : A -> flow B) (xs : list A) : flow (list B) :=
  match xs with
  | [] => Go []
  | x :: rest => y ← f x; ys ← map_each f rest; Go (y :: ys)
  end.

(** The handler body outside any [try]: an exception reaches the framework. *)
Definition uncaught (m : flow reply) : reply :=
  match m with
  | Go r => r
  | Ret r => r
  | Exc e => Uncaught e
  end.

(** ** Python dictionaries *)

Module Dict.
Definition t := list (string * json).

Fixpoint get (d : t) (k : string) : option json :=
  match d with
  | [] => None
  | (k', v) :: rest => if String.eqb k' k then Some v else get rest k
  end.

(** [d[k] = v]: an existing key keeps its place, a new one goes last. *)
Fixpoint set (d : t) (k : string) (v : json) : t :=
  match d with
  | [] => [(k, v)]
  | (k', v') :: rest =>
      if String.eqb k' k then (k, v) :: rest else (k', v') :: set rest k v
  end.

(** [d.pop(k)] for a key that may be absent. *)
Fixpoint remove (d : t) (k : string) : t :=
  match d with
  | [] => []
  | (k', v') :: rest =>
      if String.eqb k' k then rest else (k', v') :: remove rest k
  end.

Definition mem (d : t) (k : string) : bool :=
  match get d k with Some _ => true | None => false end.

Definition keys (d : t) : list string := map fst d.
End Dict.

(** ** Python strings *)

Module Str.
(** Non-overlapping occurrences of a non-empty [sub] in [s], left to right;
    [skip] characters of a match are still to be passed over. *)
Fixpoint count_from (sub s : string) (skip : nat) : nat :=
  match s with
  | EmptyString => 0%nat
  | String c s' =>
      match skip with
      | S k => count_from sub s' k
      | O =>
          if String.prefix sub s
          then S (count_from sub s' (String.length sub - 1))
          else count_from sub s' 0
      end
  end.

(** [s.count(sub)] *)
Definition count (sub s : string) : nat :=
  match sub with
  | EmptyString => S (String.length s)
  | _ => count_from sub s 0
  end.

(** [sub in s] *)
Definition contains (sub s : string) : bool := (0 <? count sub s)%nat.

Fixpoint chars (s : string) : list string :=
  match s with
  | EmptyString => []
  | String c s' => String c EmptyString :: chars s'
  end.

Definition lower_ascii (c : ascii) : ascii :=
  let n := nat_of_ascii c in
  if ((65 <=? n) && (n <=? 90))%nat then ascii_of_nat (n + 32) else c.

Fixpoint lower (s : string) : string :=
  match s with
  | EmptyString => EmptyString
  | String c s' => String (lower_ascii c) (lower s')
  end.
End Str.

(** ** Python operations on JSON values *)

(** [o == s] for a string [s]: a string equals only the same string. *)
Definition py_eq_str (o : json) (s : string) : bool :=
  match o with
  | JStr t => String.eqb t s
  | _ => false
  end.

(** [o[k]] for a string key. *)
Definition py_getitem (o : json) (k : string) : flow json :=
  match o with
  | JDict d =>
      match Dict.get d k with
      | Some v => Go v
      | None => Exc (KeyError (JStr k))
      end
  | _ => Exc TypeError
  end.

(** [o[i]] for an integer key [i >= 0]. *)
Definition py_getindex (o : json) (i : nat) : flow json :=
  match o with
  | JList l =>
      match l !! i with
      | Some v => Go v
      | None => Exc IndexError
      end
  | JStr s =>
      match Str.chars s !! i with
      | Some c => Go (JStr c)
      | None => Exc IndexError
      end
  | JDict _ => Exc (KeyError (JInt (Z.of_nat i)))
  | _ => Exc TypeError
  end.

(** [o[k] = v] for a string key; the object is updated in place. *)
Definition py_setitem (o : json) (k : string) (v : json) : flow json :=
  match o with
  | JDict d => Go (JDict (Dict.set d k v))
  | _ => Exc TypeError
  end.

(** [k in o] for a string [k]. *)
Definition py_contains (k : string) (o : json) : flow bool :=
  match o with
  | JDict d => Go (Dict.mem d k)
  | JList l => Go (existsb (fun x => py_eq_str x k) l)
  | JStr s => Go (Str.contains k s)
  | _ => Exc TypeError
  end.

(** [for x in o]: the items the loop visits. *)
Definition py_iter (o : json) : flow (list json) :=
  match o with
  | JList l => Go l
  | JDict d => Go (map JStr (Dict.keys d))
  | JStr s => Go (map JStr (Str.chars s))
  | _ => Exc TypeError
  end.

Definition is_str (o : json) : bool :=
  match o with JStr _ => true | _ => false end.

Definition is_list (o : json) : bool :=
  match o with JList _ => true | _ => false end.

Definition is_dict (o : json) : bool :=
  match o with JDict _ => true | _ => false end.

(** [isinstance(o, int)]: [bool] is a subclass of [int]. *)
Definition is_int (o : json) : bool :=
  match o with JInt _ | JBool _ => true | _ => false end.

Definition is_float (o : json) : bool :=
  match o with JFloat _ => true | _ => false end.

(** The integer an [int] instance compares equal to. *)
Definition int_value (o : json) : option Z :=
  match o with
  | JInt z => Some z
  | JBool true => Some 1
  | JBool false => Some 0
  | _ => None
  end.

(** A selector in an access path [o[k1][i2]...]. *)
Inductive sel : Type :=
| Key (k : string)
| Idx (i : nat).

Definition py_get (o : json) (s : sel) : flow json :=
  match s with
  | Key k => py_getitem o k
  | Idx i => py_getindex o i
  end.

(** [o[s1][s2]...[sn]] *)
Fixpoint get_path (o : json) (p : list sel) : flow json :=
  match p with
  | [] => Go o
  | s :: rest => child ← py_get o s; get_path child rest
  end.

(** The container [o] seen after the object it holds at [s] was updated in
    place: the same container with the updated child at the same place. *)
Definition with_child (o : json) (s : sel) (child : json) : json :=
  match o, s with
  | JDict d, Key k => JDict (Dict.set d k child)
  | JList l, Idx i => JList (<[i:=child]> l)
  | _, _ => o
  end.

(** [o[s1]...[sn][k] = v] *)
Fixpoint set_path (o : json) (p : list sel) (k : string) (v : json) : flow json :=
  match p with
  | [] => py_setitem o k v
  | s :: rest =>
      child ← py_get o s;
      child' ← set_path child rest k v;
      Go (with_child o s child')
  end.

(** The items of a container rewritten where they stand, as a loop does that
    assigns through [container[index]] (or through the loop variable, which
    is the same object).  Only a list holds objects that can be rewritten;
    the loop still visits the items of any other iterable. *)
Fixpoint rewrite_from (f : nat -> json -> flow json) (index : nat)
    (items : list json) : flow (list json) :=
  match items with
  | [] => Go []
  | x :: rest =>
      y ← f index x;
      ys ← rewrite_from f (S index) rest;
      Go (y :: ys)
  end.

Definition rewrite_items (f : nat -> json -> flow json) (container : json)
  : flow json :=
  match container with
  | JList l => l' ← rewrite_from f 0 l; Go (JList l')
  | other =>
      items ← py_iter other;
      _ ← rewrite_from f 0 items;
      Go other
  end.

(** ** Timestamps *)

Record datetime : Type := mk_datetime {
  year : nat; month : nat; day : nat;
  hour : nat; minute : nat; second : nat
}.

Definition DATETIME_FORMAT : string := "%Y-%m-%dT%H:%M:%SZ".

Definition string_of_nat (n : nat) : string :=
  NilZero.string_of_uint (Nat.to_uint n).

Fixpoint zeros (n : nat) : string :=
  match n with
  | O => ""
  | S k => String "0" (zeros k)
  end.

(** [%0wd] *)
Definition zero_pad (w n : nat) : string :=
  let s := string_of_nat n in
  zeros (w - String.length s) +:+ s.

(** [datetime.isoformat()] of a naive value without microseconds. *)
Definition isoformat (d : datetime) : string :=
  zero_pad 4 (year d) +:+ "-" +:+ zero_pad 2 (month d) +:+ "-" +:+
  zero_pad 2 (day d) +:+ "T" +:+ zero_pad 2 (hour d) +:+ ":" +:+
  zero_pad 2 (minute d) +:+ ":" +:+ zero_pad 2 (second d).

(** ** The collaborators outside the repository *)

Record externals : Type := {
  (** [datetime.strptime(s, DATETIME_FORMAT)]; [None] is its [ValueError]. *)
  strptime : string -> option datetime;
  (** [Web3.isAddress] on a text string. *)
  isAddress : string -> bool;
  (** Recovery of the signer's address from a message and its signature;
      [None] when the signature is invalid. *)
  recoverSigner : json -> json -> option string;
  (** The plecos validator of the metadata attributes against the remote
      schema, and its list of (path, message) errors. *)
  is_valid_dict_remote : json -> bool;
  list_errors_dict_remote : json -> list (string * string);
  (** [Config(...).allow_free_assets_only] *)
  allow_free_assets_only : string;
  (** The configured allow-list of updater addresses. *)
  allowed_updaters : list string
}.

(** A request as a handler sees it: [request.environ['REMOTE_ADDR']],
    [request.json], and the reading of the UTC clock, second precision,
    that [get_timestamp()] gives while the request is served. *)
Record request : Type := {
  remote_addr : string;
  payload : json;
  now : string
}.

(** ** The document store *)

Abbreviation store := (gmap string json).

(** Modelled from the spec: the [Dao] of [aquarius/app/dao.py], which is not
    among the sources.  The store exposes atomic single-document get, put
    and delete, keyed by the DID, a string. *)
Module dao.
Definition get (st : store) (did : string) : option json := st !! did.

Definition update (st : store) (record : json) (did : string) : store :=
  <[did := record]> st.

(** The key of [register] is the payload's [id]; only a string is a DID. *)
Definition register (st : store) (record : json) (id : json) : flow store :=
  match id with
  | JStr did => Go (<[did := record]> st)
  | _ => Exc StoreError
  end.

Definition delete (st : store) (did : string) : store := base.delete did st.

Definition get_all_assets (st : store) : list json :=
  map snd (map_to_list st).
End dao.

(** ** Address comparison and authorization *)

(** Modelled from the spec: [compare_eth_addresses] of [aquarius/app/util.py],
    which is not among the sources: addresses are compared
    case-insensitively.  Only strings are addresses. *)
Definition compare_eth_addresses (address checker : json) : bool :=
  match address, checker with
  | JStr a, JStr b => String.eqb (Str.lower a) (Str.lower b)
  | _, _ => false
  end.

Section Engine.
Context (E : externals).

(** Modelled from the spec: [_can_update_did] of [aquarius/app/util.py],
    which is not among the sources ([authorizeAsOwner]): the signer is
    recovered from the submitted [updated] and [signature], and the caller
    is authorized iff it equals the document's [publicKey[0].owner]. *)
Definition _can_update_did (ddo updated signature : json) : bool :=
  match recoverSigner E updated signature with
  | None => false
  | Some signer =>
      match get_path ddo [Key "publicKey"; Idx 0%nat; Key "owner"] with
      | Go owner => compare_eth_addresses (JStr signer) owner
      | _ => false
      end
  end.

(** Modelled from the spec: [_can_update_did_from_allowed_updaters] of
    [aquarius/app/util.py], which is not among the sources
    ([authorizeAsAllowedUpdater]): the caller is authorized iff the
    recovered signer is a member of the configured allow-list. *)
Definition _can_update_did_from_allowed_updaters
    (ddo updated signature : json) : bool :=
  match recoverSigner E updated signature with
  | None => false
  | Some signer =>
      existsb (fun a => compare_eth_addresses (JStr signer) (JStr a))
              (allowed_updaters E)
  end.

(** ** Helpers of [assets.py] *)

Definition get_timestamp (rq : request) : string := now rq.

Definition format_timestamp (timestamp : json) : flow string :=
  match timestamp with
  | JStr s =>
      match strptime E s with
      | Some d => Go (isoformat d +:+ "Z")
      | None => Exc ValueError
      end
  | _ => Exc TypeError
  end.

Definition bad_date_format : reply :=
  Reply (Text ("Incorrect data format, should be '" +:+ DATETIME_FORMAT +:+ "'")) 400.

Definition validate_date_format (date : json) : flow unit :=
  match date with
  | JStr s =>
      match strptime E s with
      | Some _ => Go tt
      | None => Ret bad_date_format
      end
  | _ => Ret bad_date_format
  end.
End Engine.

Definition dquote : string := String (ascii_of_nat 34) EmptyString.

Definition check_required_attributes
    (required_attributes : list string) (data : json) (method : string)
  : flow unit :=
  match data with
  | JDict [] => Ret (Reply (Text "payload seems empty.") 400)
  | JDict d =>
      for_each required_attributes tt (fun _ attr =>
        if Dict.mem d attr then Go tt
        else Ret (Reply (Text (dquote +:+ attr +:+ dquote +:+
                                 " is required in the call to " +:+ method)) 400))
  | _ => Exc AssertionError
  end.

Fixpoint no_url_in (files : list json) (method : string) : flow unit :=
  match files with
  | [] => Go tt
  | file :: rest =>
      has_url ← py_contains "url" file;
      if has_url : bool
      then Ret (Reply (Text (method +:+ " request failed: url is not allowed in files ")) 400)
      else no_url_in rest method
  end.

Definition check_no_urls_in_files (main : json) (method : string) : flow unit :=
  has_files ← py_contains "files" main;
  if has_files : bool then
    files ← py_getitem main "files";
    items ← py_iter files;
    no_url_in items method
  else Go tt.

Fixpoint first_metadata (services : list json) : flow json :=
  match services with
  | [] => Go JNull
  | service :: rest =>
      ty ← py_getitem service "type";
      if py_eq_str ty "metadata" then Go service else first_metadata rest
  end.

Definition _get_metadata (services : json) : flow json :=
  items ← py_iter services;
  first_metadata items.

Definition _get_main_metadata (services : json) : flow json :=
  metadata ← _get_metadata services;
  get_path metadata [Key "attributes"; Key "main"].

Definition _get_curation_metadata (services : json) : flow json :=
  metadata ← _get_metadata services;
  get_path metadata [Key "attributes"; Key "curation"].

Definition _reorder_services (services : json) : flow (list json) :=
  items ← py_iter services;
  result ← for_each items [] (fun result service =>
    ty ← py_getitem service "type";
    Go (if py_eq_str ty "metadata" then result ++ [service] else result));
  for_each items result (fun result service =>
    ty ← py_getitem service "type";
    Go (if negb (py_eq_str ty "metadata") then result ++ [service] else result)).

Definition _sanitize_record (data_record : json) : body :=
  match data_record with
  | JDict d => Json (JDict (Dict.remove d "_id"))
  | other => Json other
  end.

(** ** [round(x, 1)] *)

Module Round.
(** binary64 *)
Definition prec : Z := 53.
Definition emax : Z := 1024.

(** The double nearest to [num / den] (ties to even), with sign [s]. *)
Definition nearest (s : bool) (num den : positive) : float64 :=
  SFdiv prec emax (S754_finite s num 0) (S754_finite false den 0).

(** The double a decimal literal [n / 10^k] denotes, [n > 0], as the JSON
    parser produces it. *)
Definition dec (n : positive) (k : nat) : float64 :=
  nearest false n (Pos.pow 10 (Pos.of_nat k)).

(** The integer nearest to [num / den], ties to the even one. *)
Definition div_half_even (num den : Z) : Z :=
  let q := num / den in
  let r := num mod den in
  match 2 * r ?= den with
  | Lt => q
  | Gt => q + 1
  | Eq => if Z.even q then q else q + 1
  end.

(** The number of tenths nearest to the exact value [m * 2^e]. *)
Definition tenths (m : positive) (e : Z) : Z :=
  if 0 <=? e then 10 * Z.pos m * 2 ^ e
  else div_half_even (10 * Z.pos m) (2 ^ (- e)).

(** [float.__round__(x, 1)]: the exact value of [x] is rounded to the
    closest multiple of one tenth, ties to the even multiple, and the
    decimal obtained is converted back to the nearest double.  Zeros,
    infinities and NaN round to themselves. *)
Definition round1 (x : float64) : float64 :=
  match x with
  | S754_finite s m e =>
      match tenths m e with
      | Z.pos n => nearest s n 10
      | _ => S754_zero s
      end
  | other => other
  end.

(** [round(x, 1)] for the numbers a payload can hold: an [int] (and so a
    [bool]) rounds to the same [int]. *)
Definition round (x : json) : flow json :=
  match x with
  | JFloat f => Go (JFloat (round1 f))
  | JInt z => Go (JInt z)
  | JBool b => Go (JInt (if b then 1 else 0))
  | _ => Exc TypeError
  end.
End Round.

(** ** Methods of the whitelist object *)

(** The number of items of [l] equal to the string [x]. *)
Fixpoint count_occ_str (x : string) (l : list json) : nat :=
  match l with
  | [] => 0%nat
  | item :: rest =>
      if py_eq_str item x then S (count_occ_str x rest) else count_occ_str x rest
  end.

(** [o.count(x)] for a string [x]: lists and strings have the method. *)
Definition py_count (o : json) (x : string) : flow nat :=
  match o with
  | JList l => Go (count_occ_str x l)
  | JStr s => Go (Str.count x s)
  | _ => Exc AttributeError
  end.

(** [o.append(x)] *)
Definition py_append (o : json) (x : json) : flow json :=
  match o with
  | JList l => Go (JList (l ++ [x]))
  | _ => Exc AttributeError
  end.

(** [l.remove(x)] for a string [x]: the first item equal to [x] goes. *)
Fixpoint remove_first (x : string) (l : list json) : option (list json) :=
  match l with
  | [] => None
  | item :: rest =>
      if py_eq_str item x then Some rest
      else rest' ← remove_first x rest; Some (item :: rest')
  end.

Definition py_remove (o : json) (x : string) : flow json :=
  match o with
  | JList l =>
      match remove_first x l with
      | Some l' => Go (JList l')
      | None => Exc ValueError
      end
  | _ => Exc AttributeError
  end.

(** ** The request handlers *)

(** The end of a handler: its response and the store it leaves.  A response
    returned on the way and an exception nothing catches leave the store as
    it was. *)
Definition run (st : store) (m : flow (reply * store)) : reply * store :=
  match m with
  | Go rs => rs
  | Ret r => (r, st)
  | Exc e => (Uncaught e, st)
  end.

(** [try: ... except (KeyError, Exception) as err: return f'Some error: {str(err)}', 500] *)
Definition try_500 {A} (m : flow A) : flow A :=
  match m with
  | Exc e => Ret (Reply (SomeError e) 500)
  | other => other
  end.

(** A handler called as a plain function: what it returns is a value. *)
Definition call (st : store) (m : flow (reply * store)) : flow (reply * store) :=
  match m with
  | Ret r => Go (r, st)
  | other => other
  end.

Definition assert_dict (data : json) : flow unit :=
  if is_dict data then Go tt else Exc AssertionError.

Definition required_ddo : list string :=
  ["@context"; "created"; "id"; "publicKey"; "authentication"; "proof"; "service"].

Definition initial_curation : json :=
  JDict [("rating", JFloat (S754_zero false));
         ("numVotes", JInt 0);
         ("isListed", JBool true)].

Definition priced_assets : reply :=
  Reply (Text "Priced assets are not supported in this marketplace") 400.

Definition no_rights : reply := Reply (Text "You have no rights") 401.

Definition not_allowed : reply := Reply (Text "Not allowed to update this DID") 401.

Definition cannot_find (did : string) : reply :=
  Reply (Text ("Cannot find did: " +:+ did +:+ " ")) 404.

(** [ip != '127.0.0.1' and ip != 'localhost'] *)
Definition remote_caller (ip : string) : bool :=
  negb (String.eqb ip "127.0.0.1") && negb (String.eqb ip "localhost").

(** Keys of a dictionary must be hashable. *)
Definition hashable (o : json) : bool :=
  match o with
  | JList _ | JDict _ => false
  | _ => true
  end.

(** [{s['type']: s for s in services}['metadata']]: the last service of
    type [metadata], with its place in the list. *)
Fixpoint services_by_type (services : list json) (index : nat)
    (found : option (nat * json)) : flow (option (nat * json)) :=
  match services with
  | [] => Go found
  | s :: rest =>
      ty ← py_getitem s "type";
      if hashable ty
      then services_by_type rest (S index)
             (if py_eq_str ty "metadata" then Some (index, s) else found)
      else Exc TypeError
  end.

Section Handlers.
Context (E : externals).

(** The free-assets-only gate of [register] and [update]. *)
Definition free_assets_gate (service : json) : flow unit :=
  if String.eqb (allow_free_assets_only E) "true" then
    price ← get_path service [Key "attributes"; Key "main"; Key "price"];
    if negb (py_eq_str price "0") then Ret priced_assets else Go tt
  else Go tt.

(** The body of the loop of [register] over [_record['service']]. *)
Definition register_service (rq : request) (index : nat) (service : json)
  : flow json :=
  ty ← py_getitem service "type";
  if py_eq_str ty "metadata" then
    _ ← free_assets_gate service;
    dateCreated ← get_path service [Key "attributes"; Key "main"; Key "dateCreated"];
    ts ← format_timestamp E dateCreated;
    service ← set_path service [Key "attributes"; Key "main"] "dateCreated" (JStr ts);
    service ← set_path service [Key "attributes"; Key "main"] "datePublished"
                (JStr (get_timestamp rq));
    set_path service [Key "attributes"] "curation" initial_curation
  else Go service.

Definition schema_errors (attributes : json) : reply :=
  Reply (ErrorList (list_errors_dict_remote E attributes)) 400.

Definition register_flow (st : store) (rq : request) : flow (reply * store) :=
  let data := payload rq in
  _ ← assert_dict data;
  _ ← (match data with JDict [] => Ret (Bare 400) | _ => Go tt end);
  _ ← check_required_attributes required_ddo data "register";
  services ← py_getitem data "service";
  main ← _get_main_metadata services;
  _ ← check_no_urls_in_files main "register";
  created ← py_getitem data "created";
  _ ← validate_date_format E created;
  let _record := data in
  ts ← format_timestamp E created;
  _record ← py_setitem _record "created" (JStr ts);
  created' ← py_getitem _record "created";
  _record ← py_setitem _record "updated" created';
  has_list ← py_contains "accesssWhiteList" data;
  _record ←
    (if negb has_list then py_setitem _record "accesssWhiteList" (JList [])
     else
       white_list ← py_getitem data "accesssWhiteList";
       if negb (is_list white_list)
       then py_setitem _record "accesssWhiteList" (JList [])
       else py_setitem _record "accesssWhiteList" white_list);
  services ← py_getitem _record "service";
  services ← rewrite_items (register_service rq) services;
  let _record := with_child _record (Key "service") services in
  services ← py_getitem _record "service";
  reordered ← _reorder_services services;
  _record ← py_setitem _record "service" (JList reordered);
  services ← py_getitem _record "service";
  metadata ← _get_metadata services;
  attributes ← py_getitem metadata "attributes";
  if negb (is_valid_dict_remote E attributes) then Ret (schema_errors attributes)
  else
    try_500 (
      id ← py_getitem data "id";
      st' ← dao.register st _record id;
      Go (Reply (_sanitize_record _record) 201, st')).

Definition register (st : store) (rq : request) : reply * store :=
  run st (register_flow st rq).

(** The loop of [update] over [_record['service']] before the write. *)
Definition update_gate (services : json) : flow unit :=
  items ← py_iter services;
  for_each items tt (fun _ service =>
    ty ← py_getitem service "type";
    if py_eq_str ty "metadata" then free_assets_gate service else Go tt).

(** What [update] does once the checks of the payload are passed: under
    [try], the fall-back to [register] for an unknown DID, else the write. *)
Definition update_write (did : string) (st : store) (rq : request)
    (_record : json) : flow (reply * store) :=
  try_500 (
    match dao.get st did with
    | None =>
        '(_, st') ← call st (register_flow st rq);
        Go (Reply (_sanitize_record _record) 201, st')
    | Some _ =>
        services ← py_getitem _record "service";
        _ ← update_gate services;
        Go (Reply (_sanitize_record _record) 200, dao.update st _record did)
    end).

(** [update] after its gate on the caller's address. *)
Definition update_local (did : string) (st : store) (rq : request)
  : flow (reply * store) :=
  let data := payload rq in
  _ ← (match data with JDict [] => Ret (Bare 400) | _ => Go tt end);
  _ ← check_required_attributes required_ddo data "update";
  services ← py_getitem data "service";
  main ← _get_main_metadata services;
  _ ← check_no_urls_in_files main "register";
  created ← py_getitem data "created";
  _ ← validate_date_format E created;
  let _record := data in
  ts ← format_timestamp E created;
  _record ← py_setitem _record "created" (JStr ts);
  created' ← py_getitem _record "created";
  _record ← py_setitem _record "updated" created';
  services ← py_getitem _record "service";
  reordered ← _reorder_services services;
  _record ← py_setitem _record "service" (JList reordered);
  services ← py_getitem _record "service";
  items ← py_iter services;
  by_type ← services_by_type items 0 None;
  '(index, service) ←
    (match by_type with
     | Some found => Go found
     | None => Exc (KeyError (JStr "metadata"))
     end);
  metadata_main ← get_path service [Key "attributes"; Key "main"];
  dateCreated ← py_getitem metadata_main "dateCreated";
  ts ← format_timestamp E dateCreated;
  service ← set_path service [Key "attributes"; Key "main"] "dateCreated" (JStr ts);
  metadata_main ← get_path service [Key "attributes"; Key "main"];
  datePublished ← py_getitem metadata_main "datePublished";
  ts ← format_timestamp E datePublished;
  service ← set_path service [Key "attributes"; Key "main"] "datePublished" (JStr ts);
  let _record :=
    with_child _record (Key "service") (with_child services (Idx index) service) in
  services ← py_getitem _record "service";
  metadata ← _get_metadata services;
  attributes ← py_getitem metadata "attributes";
  if negb (is_valid_dict_remote E attributes) then Ret (schema_errors attributes)
  else update_write did st rq _record.

Definition update_flow (did : string) (st : store) (rq : request)
  : flow (reply * store) :=
  _ ← assert_dict (payload rq);
  if remote_caller (remote_addr rq) then Ret no_rights
  else update_local did st rq.

Definition update (did : string) (st : store) (rq : request) : reply * store :=
  run st (update_flow did st rq).

(** [Web3.isAddress(value)] holds of text (and byte) strings only; a JSON
    payload holds no byte string. *)
Definition Web3_isAddress (value : json) : bool :=
  match value with
  | JStr s => isAddress E s
  | _ => false
  end.

Definition transfer_ownership (did : string) (st : store) (rq : request)
  : reply * store :=
  run st (
    let data := payload rq in
    _ ← check_required_attributes ["signature"; "updated"; "newOwner"] data
          "transferownership";
    newOwner ← py_getitem data "newOwner";
    if negb (Web3_isAddress newOwner)
    then Ret (Reply (Text "New owner is not a valid address") 400)
    else
      try_500 (
        match dao.get st did with
        | None => Ret (cannot_find did)
        | Some _record =>
            updated ← py_getitem data "updated";
            signature ← py_getitem data "signature";
            if negb (_can_update_did E _record updated signature)
            then Ret not_allowed
            else
              owner ← get_path _record [Key "publicKey"; Idx 0%nat; Key "owner"];
              newOwner ← py_getitem data "newOwner";
              if compare_eth_addresses owner newOwner
              then Ret (Reply (Text "New owner must be different than owner") 400)
              else
                newOwner ← py_getitem data "newOwner";
                _record ← set_path _record [Key "publicKey"; Idx 0%nat] "owner" newOwner;
                _record ← py_setitem _record "updated" (JStr (get_timestamp rq));
                Go (Reply (Text "Asset successfully transferred") 200,
                    dao.update st _record did)
        end)).

(** The body of the loop of [update_ratings] over [_record['service']]. *)
Definition rate_service (data : json) (index : nat) (service : json)
  : flow json :=
  ty ← py_getitem service "type";
  if py_eq_str ty "metadata" then
    rating ← py_getitem data "rating";
    rounded ← Round.round rating;
    service ← set_path service [Key "attributes"; Key "curation"] "rating" rounded;
    numVotes ← py_getitem data "numVotes";
    set_path service [Key "attributes"; Key "curation"] "numVotes" numVotes
  else Go service.

Definition update_ratings (did : string) (st : store) (rq : request)
  : reply * store :=
  run st (
    let data := payload rq in
    _ ← check_required_attributes ["signature"; "updated"; "rating"; "numVotes"]
          data "ratingsupdate";
    rating ← py_getitem data "rating";
    if negb (is_float rating) && negb (is_int rating)
    then Ret (Reply (Text "Rating is not float") 400)
    else
      numVotes ← py_getitem data "numVotes";
      if negb (is_int numVotes)
      then Ret (Reply (Text "NumVotes is not int") 400)
      else
        try_500 (
          match dao.get st did with
          | None => Ret (cannot_find did)
          | Some _record =>
              updated ← py_getitem data "updated";
              signature ← py_getitem data "signature";
              if negb (_can_update_did_from_allowed_updaters E _record updated signature)
              then Ret not_allowed
              else
                _record ← py_setitem _record "updated" (JStr (get_timestamp rq));
                services ← py_getitem _record "service";
                services ← rewrite_items (rate_service data) services;
                let _record := with_child _record (Key "service") services in
                Go (Reply (Text "Rating successfully updated") 200,
                    dao.update st _record did)
          end)).

Definition invalid_address : reply :=
  Reply (Text "Address is not a valid eth address") 400.

Definition add_access_white_list (did : string) (st : store) (rq : request)
  : reply * store :=
  run st (
    let data := payload rq in
    _ ← check_required_attributes ["signature"; "updated"; "address"] data
          "addaccessWhiteList";
    address ← py_getitem data "address";
    match address with
    | JStr a =>
        if negb (isAddress E a) then Ret invalid_address
        else
          try_500 (
            match dao.get st did with
            | None => Ret (cannot_find did)
            | Some _record =>
                updated ← py_getitem data "updated";
                signature ← py_getitem data "signature";
                if negb (_can_update_did E _record updated signature)
                then Ret not_allowed
                else
                  white_list ← py_getitem _record "accesssWhiteList";
                  n ← py_count white_list a;
                  if (0 <? n)%nat
                  then Ret (Reply (Text "Address already in list") 400)
                  else
                    white_list ← py_getitem _record "accesssWhiteList";
                    white_list ← py_append white_list (JStr a);
                    let _record :=
                      with_child _record (Key "accesssWhiteList") white_list in
                    _record ← py_setitem _record "updated" (JStr (get_timestamp rq));
                    Go (Reply (Text "Address added.") 200,
                        dao.update st _record did)
            end)
    | _ => Ret invalid_address
    end).

Definition delete_access_white_list (did : string) (st : store) (rq : request)
  : reply * store :=
  run st (
    let data := payload rq in
    _ ← check_required_attributes ["signature"; "updated"; "address"] data
          "deleteaccessWhiteList";
    address ← py_getitem data "address";
    match address with
    | JStr a =>
        if negb (isAddress E a) then Ret invalid_address
        else
          try_500 (
            match dao.get st did with
            | None => Ret (cannot_find did)
            | Some _record =>
                updated ← py_getitem data "updated";
                signature ← py_getitem data "signature";
                if negb (_can_update_did E _record updated signature)
                then Ret not_allowed
                else
                  white_list ← py_getitem _record "accesssWhiteList";
                  n ← py_count white_list a;
                  if (n <? 1)%nat
                  then Ret (Reply (Text "Address not in list") 400)
                  else
                    white_list ← py_getitem _record "accesssWhiteList";
                    white_list ← py_remove white_list a;
                    let _record :=
                      with_child _record (Key "accesssWhiteList") white_list in
                    _record ← py_setitem _record "updated" (JStr (get_timestamp rq));
                    Go (Reply (Text "Address removed.") 200,
                        dao.update st _record did)
            end)
    | _ => Ret invalid_address
    end).

Definition retire (did : string) (st : store) (rq : request) : reply * store :=
  run st (
    try_500 (
      match dao.get st did with
      | None => Ret (Reply (Text "This asset DID is not in OceanDB") 404)
      | Some _record =>
          _ ← (if remote_caller (remote_addr rq) then
                 let data := payload rq in
                 _ ← check_required_attributes ["signature"; "updated"] data
                       "deleteasset";
                 updated ← py_getitem data "updated";
                 signature ← py_getitem data "signature";
                 if negb (_can_update_did E _record updated signature)
                 then Ret not_allowed
                 else Go tt
               else Go tt);
          Go (Reply (Text "Succesfully deleted") 200, dao.delete st did)
      end)).

(** [new_links] of [update_metadata]: the links whose [name], [url] and
    [type] are strings, looked up in this order and only as far as the
    conjunction needs. *)
Fixpoint keep_links (links : list json) (new_links : list json)
  : flow (list json) :=
  match links with
  | [] => Go new_links
  | link :: rest =>
      name ← py_getitem link "name";
      ok ←
        (if is_str name then
           url ← py_getitem link "url";
           if is_str url then
             ty ← py_getitem link "type";
             Go (is_str ty)
           else Go false
         else Go false);
      keep_links rest (if ok : bool then new_links ++ [link] else new_links)
  end.

(** The edits of [update_metadata] to a service of type [metadata]. *)
Definition edit_metadata (data : json) (service : json) : flow json :=
  has_title ← py_contains "title" data;
  service ←
    (if has_title : bool then
       title ← py_getitem data "title";
       if is_str title
       then set_path service [Key "attributes"; Key "main"] "name" title
       else Go service
     else Go service);
  has_description ← py_contains "description" data;
  service ←
    (if has_description : bool then
       description ← py_getitem data "description";
       if is_str description
       then set_path service [Key "attributes"; Key "additionalInformation"]
              "description" description
       else Go service
     else Go service);
  has_links ← py_contains "links" data;
  if has_links : bool then
    links ← py_getitem data "links";
    match links with
    | JList l =>
        new_links ← keep_links l [];
        if (0 <? length new_links)%nat
        then set_path service [Key "attributes"; Key "additionalInformation"]
               "links" (JList new_links)
        else Go service
    | _ => Go service
    end
  else Go service.

(** The price edits of [update_metadata] to the service at [index]. *)
Definition edit_price (index : nat) (service : json) (price : json)
  : flow json :=
  serviceIndex ← py_getitem price "serviceIndex";
  if is_int serviceIndex then
    new_price ← py_getitem price "price";
    if is_str new_price then
      if bool_decide (int_value serviceIndex = Some (Z.of_nat index)) then
        has_attributes ← py_contains "attributes" service;
        if has_attributes : bool then
          attributes ← py_getitem service "attributes";
          has_main ← py_contains "main" attributes;
          if has_main : bool
          then set_path service [Key "attributes"; Key "main"] "price" new_price
          else Go service
        else Go service
      else Go service
    else Go service
  else Go service.

Definition edit_prices (data : json) (index : nat) (service : json)
  : flow json :=
  has_prices ← py_contains "servicePrices" data;
  if has_prices : bool then
    prices ← py_getitem data "servicePrices";
    match prices with
    | JList l => for_each l service (edit_price index)
    | _ => Go service
    end
  else Go service.

(** The body of the loop of [update_metadata] over [_record['service']]. *)
Definition edit_service (data : json) (index : nat) (service : json)
  : flow json :=
  ty ← py_getitem service "type";
  service ←
    (if py_eq_str ty "metadata" then edit_metadata data service
     else Go service);
  edit_prices data index service.

Definition update_metadata (did : string) (st : store) (rq : request)
  : reply * store :=
  run st (
    let data := payload rq in
    _ ← check_required_attributes ["signature"; "updated"] data "metadataupdate";
    try_500 (
      match dao.get st did with
      | None => Ret (cannot_find did)
      | Some _record =>
          updated ← py_getitem data "updated";
          signature ← py_getitem data "signature";
          if negb (_can_update_did E _record updated signature)
          then Ret not_allowed
          else
            _record ← py_setitem _record "updated" (JStr (get_timestamp rq));
            services ← py_getitem _record "service";
            services ← rewrite_items (edit_service data) services;
            let _record := with_child _record (Key "service") services in
            Go (Reply (Text "Metadata successfully updated") 200,
                dao.update st _record did)
      end)).

(** The deletions of [retire_all], one document after the other. *)
Fixpoint delete_each (ids : list json) (st : store) : reply * store :=
  match ids with
  | [] => (Reply (Text "All ddo successfully deleted") 200, st)
  | JStr did :: rest => delete_each rest (dao.delete st did)
  | _ :: rest => (Reply (Text "An error was found") 500, st)
  end.

Definition retire_all (st : store) (rq : request) : reply * store :=
  if remote_caller (remote_addr rq) then (no_rights, st)
  else
    match map_each (fun a => py_getitem a "id") (dao.get_all_assets st) with
    | Go all_ids => delete_each all_ids st
    | _ => (Reply (Text "An error was found") 500, st)
    end.

(** ** The operations of the engine *)

Inductive operation : Type :=
| Create
| FullUpdate (did : string)
| TransferOwnership (did : string)
| RateUpdate (did : string)
| WhitelistAdd (did : string)
| WhitelistRemove (did : string)
| PartialMetadataUpdate (did : string)
| Retire (did : string)
| RetireAll.

Definition handle (op : operation) (st : store) (rq : request) : reply * store :=
  match op with
  | Create => register st rq
  | FullUpdate did => update did st rq
  | TransferOwnership did => transfer_ownership did st rq
  | RateUpdate did => update_ratings did st rq
  | WhitelistAdd did => add_access_white_list did st rq
  | WhitelistRemove did => delete_access_white_list did st rq
  | PartialMetadataUpdate did => update_metadata did st rq
  | Retire did => retire did st rq
  | RetireAll => retire_all st rq
  end.
End Handlers.

(** ** The order of timestamps *)

Definition datetime_fields (d : datetime) : list nat :=
  [year d; month d; day d; hour d; minute d; second d].

Fixpoint fields_ltb (a b : list nat) : bool :=
  match a, b with
  | x :: a', y :: b' => (x <? y)%nat || ((x =? y)%nat && fields_ltb a' b')
  | _, _ => false
  end.

(** The instant [s] lies before the instant [t]. *)
Definition earlier (E : externals) (s t : string) : Prop :=
  exists a b,
    strptime E s = Some a /\ strptime E t = Some b /\
    fields_ltb (datetime_fields a) (datetime_fields b) = true.

(** ** Addresses that differ by case only *)

(** The two values are addresses and equal up to the case of their letters. *)
Definition same_address (a b : json) : Prop :=
  exists x y, a = JStr x /\ b = JStr y /\ Str.lower x = Str.lower y.

(** The place of the owner in a document. *)
Definition owner_path : list sel := [Key "publicKey"; Idx 0%nat; Key "owner"].

(** ** Requests of the owner about an address *)

(** The request carries [address], and [updated] and [signature] that
    authorize its sender as the owner of [doc]. *)
Definition owner_request (E : externals) (doc : json) (rq : request)
    (address : string) : Prop :=
  exists signature updated,
    py_getitem (payload rq) "signature" = Go signature /\
    py_getitem (payload rq) "updated" = Go updated /\
    py_getitem (payload rq) "address" = Go (JStr address) /\
    _can_update_did E doc updated signature = true.

(** The document [doc] after its whitelist object became [white_list] and
    its [updated] the reading [clock]. *)
Definition with_white_list (doc : json) (white_list : list json)
    (clock : string) : json :=
  match doc with
  | JDict d =>
      JDict (Dict.set (Dict.set d "accesssWhiteList" (JList white_list))
                      "updated" (JStr clock))
  | other => other
  end.

(** ** Rounding to one decimal place *)

(** [n] tenths are nearest to the number [m * 2^e]: they differ from it by
    half a tenth at most.  Both sides are scaled to integers. *)
Definition nearest_tenths (m : positive) (e : Z) (n : Z) : Prop :=
  Z.abs (2 * (10 * Z.pos m * 2 ^ Z.max e 0) - 2 * n * 2 ^ Z.max (- e) 0)
  <= 2 ^ Z.max (- e) 0.

(** [r] is the number [x] rounded to one decimal place: for a finite
    double, the double nearest to the nearest number of tenths; an integer,
    a zero, an infinity and NaN are their own rounding. *)
Definition rounded_to_one_decimal (x r : json) : Prop :=
  match x with
  | JFloat (S754_finite s m e) =>
      exists n, nearest_tenths m e n /\
        r = JFloat (match n with
                    | Z.pos p => Round.nearest s p 10
                    | _ => S754_zero s
                    end)
  | JFloat f => r = JFloat f
  | JInt z => r = JInt z
  | JBool b => r = JInt (if b then 1 else 0)
  | _ => False
  end.

Definition rating_path : list sel :=
  [Key "attributes"; Key "curation"; Key "rating"].

Definition votes_path : list sel :=
  [Key "attributes"; Key "curation"; Key "numVotes"].

(** ** What an operation may touch *)

(** The documents agree on every top-level key outside [keys]. *)
Definition agree_outside (keys : list string) (doc doc' : json) : Prop :=
  forall k, ~ In k keys -> py_getitem doc' k = py_getitem doc k.

(** Each address is on the whitelist of the document once at most. *)
Definition white_list_unique (doc : json) : Prop :=
  forall white_list a,
    py_getitem doc "accesssWhiteList" = Go (JList white_list) ->
    (count_occ_str a white_list <= 1)%nat.

(** The whitelist a Create stores for the payload [data]: the list the
    payload submits, else the empty list. *)
Definition submitted_white_list (data : json) : json :=
  match py_getitem data "accesssWhiteList" with
  | Go (JList white_list) => JList white_list
  | _ => JList []
  end.

(** ** The operations that rewrite one document where it is *)

Definition in_place (op : operation) : bool :=
  match op with
  | TransferOwnership _ | RateUpdate _ | WhitelistAdd _ | WhitelistRemove _
  | PartialMetadataUpdate _ => true
  | _ => false
  end.

(** The DID in the URL of the operation. *)
Definition target (op : operation) : option string :=
  match op with
  | Create | RetireAll => None
  | FullUpdate did | TransferOwnership did | RateUpdate did
  | WhitelistAdd did | WhitelistRemove did | PartialMetadataUpdate did
  | Retire did => Some did
  end.

(** The top-level keys of the document an in-place operation assigns. *)
Definition touched (op : operation) : list string :=
  match op with
  | TransferOwnership _ => ["publicKey"; "updated"]
  | RateUpdate _ | PartialMetadataUpdate _ => ["service"; "updated"]
  | WhitelistAdd _ | WhitelistRemove _ => ["accesssWhiteList"; "updated"]
  | _ => []
  end.

(** Every stored document has each address on its whitelist once at most. *)
Definition white_lists_unique (st : store) : Prop :=
  forall did doc, st !! did = Some doc -> white_list_unique doc.

(** ** The readers *)

(** [_sanitize_record] on any value, as the readers call it on what
    [dao.get] returned, which is [None] for an unknown DID: the test
    ['_id' in data_record], the [pop] when it holds, then the dump. *)
Definition sanitize_any (data_record : json) : flow body :=
  has_id ← py_contains "_id" data_record;
  if has_id : bool then
    match data_record with
    | JDict d => Go (Json (JDict (Dict.remove d "_id")))
    | JList _ => Exc TypeError
    | _ => Exc AttributeError
    end
  else Go (Json data_record).

Definition not_in_oceandb (did : string) : reply :=
  Reply (Text (did +:+ " asset DID is not in OceanDB")) 404.

(** [dao.get(did)] as a Python value: [None] when there is no document. *)
Definition asset_record (st : store) (did : string) : json :=
  match dao.get st did with
  | Some record => record
  | None => JNull
  end.

Definition get_ddo (did : string) (st : store) : reply :=
  match sanitize_any (asset_record st did) with
  | Go b => Reply b 200
  | _ => not_in_oceandb did
  end.

Definition get_metadata (did : string) (st : store) : reply :=
  match
    services ← py_getitem (asset_record st did) "service";
    metadata ← _get_metadata services;
    sanitize_any metadata
  with
  | Go b => Reply b 200
  | _ => not_in_oceandb did
  end.

(** ** Links and files *)

(** The link has the three keys and strings under them. *)
Definition well_formed_link (link : json) : bool :=
  match py_getitem link "name", py_getitem link "url", py_getitem link "type" with
  | Go name, Go url, Go ty => is_str name && is_str url && is_str ty
  | _, _, _ => false
  end.

(** The link answers the three lookups. *)
Definition keyed_link (link : json) : Prop :=
  exists name url ty,
    py_getitem link "name" = Go name /\ py_getitem link "url" = Go url /\
    py_getitem link "type" = Go ty.

Definition has_url (file : json) : bool :=
  match file with
  | JDict d => Dict.mem d "url"
  | _ => false
  end.

Definition missing_attribute (attr method : string) : reply :=
  Reply (Text (dquote +:+ attr +:+ dquote +:+
                 " is required in the call to " +:+ method)) 400.

Definition url_in_files (method : string) : reply :=
  Reply (Text (method +:+ " request failed: url is not allowed in files ")) 400.

(** ** Predicates on services and documents *)

(** The service answers [service['type']]. *)
Definition typed (service : json) : Prop :=
  exists ty, py_getitem service "type" = Go ty.

(** [service['type'] == 'metadata'] for a service that has a type. *)
Definition is_metadata (service : json) : bool :=
  match py_getitem service "type" with
  | Go ty => py_eq_str ty "metadata"
  | _ => false
  end.

(** A stable partition of [l] by [p]: the entries that satisfy [p], in the
    order they have in [l], followed by the others, in the order they have
    in [l]. *)
Definition stable_partition {A} (p : A -> bool) (l r : list A) : Prop :=
  exists front back,
    r = front ++ back /\
    front = List.filter p l /\
    back = List.filter (fun x => negb (p x)) l /\
    Forall (fun x => p x = true) front /\
    Forall (fun x => p x = false) back.

(** ** A concrete instance of the collaborators *)

Module Sample.
Definition digit (c : ascii) : option nat :=
  let n := nat_of_ascii c in
  if ((48 <=? n) && (n <=? 57))%nat then Some (n - 48)%nat else None.

Fixpoint number (cs : list ascii) (acc : nat) : option nat :=
  match cs with
  | [] => Some acc
  | c :: rest => d ← digit c; number rest (10 * acc + d)%nat
  end.

Definition leap (y : nat) : bool :=
  ((y mod 4 =? 0) && (negb (y mod 100 =? 0) || (y mod 400 =? 0)))%nat.

Definition days_in_month (y m : nat) : nat :=
  match m with
  | 2 => if leap y then 29 else 28
  | 4 | 6 | 9 | 11 => 30
  | _ => 31
  end%nat.

(** [datetime.strptime(s, DATETIME_FORMAT)] on the zero-padded strings
    [YYYY-MM-DDTHH:MM:SSZ]; every other string is refused here. *)
Definition strptime_padded (s : string) : option datetime :=
  match list_ascii_of_string s with
  | [y1; y2; y3; y4; "-"; m1; m2; "-"; d1; d2; "T";
     h1; h2; ":"; n1; n2; ":"; s1; s2; "Z"]%char =>
      y ← number [y1; y2; y3; y4] 0;
      m ← number [m1; m2] 0;
      d ← number [d1; d2] 0;
      h ← number [h1; h2] 0;
      n ← number [n1; n2] 0;
      sec ← number [s1; s2] 0;
      if ((1 <=? y) && (1 <=? m) && (m <=? 12) && (1 <=? d) &&
          (d <=? days_in_month y m) && (h <? 24) && (n <? 60) && (sec <? 60))%nat
      then Some (mk_datetime y m d h n sec)
      else None
  | _ => None
  end.

Definition hex_lower (c : ascii) : bool :=
  let n := nat_of_ascii c in
  (((48 <=? n) && (n <=? 57)) || ((97 <=? n) && (n <=? 102)))%nat.

(** [Web3.isAddress] on the lower-case hexadecimal addresses: [0x] and
    forty digits; every other string is refused here. *)
Definition isAddress_hex (s : string) : bool :=
  match list_ascii_of_string s with
  | "0"%char :: "x"%char :: digits =>
      (length digits =? 40)%nat && forallb hex_lower digits
  | _ => false
  end.

(** A stand-in for signature recovery: a signature is the signer's
    address itself, whatever the message. *)
Definition recover_toy (message signature : json) : option string :=
  match message, signature with
  | JStr _, JStr signer => Some signer
  | _, _ => None
  end.

Definition alice : string := "0x00bd138abd70e2f00903268f3db08f2d25677c9e".
Definition bob : string := "0x858048e3ebdd3754e14f63d1185f8252ef142393".
Definition carol : string := "0x1111111111111111111111111111111111111111".
Definition operator : string := "0x2222222222222222222222222222222222222222".

Definition E : externals := {|
  strptime := strptime_padded;
  isAddress := isAddress_hex;
  recoverSigner := recover_toy;
  is_valid_dict_remote := fun _ => true;
  list_errors_dict_remote := fun _ => [];
  allow_free_assets_only := "false";
  allowed_updaters := [operator]
|}.

Definition did : string := "did:op:0c184915b07b44c8".

Definition metadata_service (curation : list (string * json)) : json :=
  JDict [("type", JStr "metadata");
         ("index", JInt 2);
         ("serviceEndpoint", JStr "http://myaquarius.org/api/v1/provider/assets/metadata/did:op:0c184915b07b44c8");
         ("attributes", JDict (
            [("main", JDict [("name", JStr "UK Weather information 2011");
                             ("type", JStr "dataset");
                             ("dateCreated", JStr "2012-02-01T10:55:11Z");
                             ("datePublished", JStr "2012-02-01T10:55:11Z");
                             ("author", JStr "Met Office");
                             ("license", JStr "CC-BY");
                             ("files", JList [JDict [("contentType", JStr "text/csv");
                                                     ("index", JInt 0)]]);
                             ("price", JStr "10")])] ++
            curation ++
            [("additionalInformation",
              JDict [("description", JStr "Weather information of UK");
                     ("links", JList [JDict [("name", JStr "Sample of Asset Data");
                                             ("type", JStr "sample");
                                             ("url", JStr "https://foo.com/sample.csv")]])])]))].

Definition access_service : json :=
  JDict [("type", JStr "access");
         ("index", JInt 1);
         ("serviceEndpoint", JStr "http://localhost:8030/api/v1/brizo/services/consume")].

(** A DDO as a client submits it. *)
Definition ddo (created : string) (extra : list (string * json)) : json :=
  JDict ([("@context", JStr "https://w3id.org/did/v1");
          ("id", JStr did);
          ("created", JStr created);
          ("publicKey", JList [JDict [("id", JStr did);
                                      ("type", JStr "EthereumECDSAKey");
                                      ("owner", JStr alice)]]);
          ("authentication", JList [JDict [("type", JStr "RsaSignatureAuthentication2018");
                                           ("publicKey", JStr did)]]);
          ("proof", JDict [("type", JStr "DDOIntegritySignature");
                           ("creator", JStr alice)]);
          ("service", JList [access_service; metadata_service []])] ++ extra).

Definition local (data : json) (clock : string) : request :=
  {| remote_addr := "127.0.0.1"; payload := data; now := clock |}.

Definition remote (data : json) (clock : string) : request :=
  {| remote_addr := "203.0.113.7"; payload := data; now := clock |}.

(** A signed request body of the owner-gated operations. *)
Definition signed (signer : string) (updated : string)
    (fields : list (string * json)) : json :=
  JDict ([("signature", JStr signer); ("updated", JStr updated)] ++ fields).

(** The creation of the sample DDO, served at noon, the store it leaves
    and the body of its response. *)
Definition creation : request :=
  remote (ddo "2020-01-01T00:00:00Z" []) "2020-01-01T12:00:00Z".

Definition registered : store := (register E ∅ creation).2.

Definition created_body : body :=
  match (register E ∅ creation).1 with
  | Reply b _ => b
  | _ => Text ""
  end.

(** The document the creation stored. *)
Definition stored : json := default JNull (registered !! did).

(** A full update of the sample DDO, sent from the host itself in March
    2020, whose payload is dated June 2019; it carries no signature. *)
Definition replacement : request :=
  local (ddo "2019-06-01T00:00:00Z" []) "2020-03-01T00:00:00Z".

Definition replaced : store := (update E did registered replacement).2.

(** The same full update carrying a signature of [bob], who is not the
    owner, sent from the host itself and from elsewhere. *)
Definition forged_ddo : json :=
  ddo "2019-06-01T00:00:00Z"
      [("updated", JStr "2020-03-01T00:00:00Z"); ("signature", JStr bob)].

Definition forged : request := local forged_ddo "2020-03-01T00:00:00Z".

Definition outsider : request := remote forged_ddo "2020-03-01T00:00:00Z".

(** The owner hands the sample DDO over to [bob]. *)
Definition transfer : request :=
  remote (signed alice "2020-01-02T00:00:00Z" [("newOwner", JStr bob)])
         "2020-01-02T00:00:00Z".

(** The owner puts [carol] on the whitelist. *)
Definition invite : request :=
  remote (signed alice "2020-01-02T00:00:00Z" [("address", JStr carol)])
         "2020-01-02T00:00:00Z".

(** The marketplace operator rates the sample DDO: 2.45 after [votes] votes. *)
Definition rate (votes : Z) : request :=
  remote (signed operator "2020-01-03T00:00:00Z"
            [("rating", JFloat (Round.dec 245 2)); ("numVotes", JInt votes)])
         "2020-01-03T00:00:00Z".

(** The store after five votes. *)
Definition rated : store := (update_ratings E did registered (rate 5)).2.

(** A creation whose payload lists [carol] twice on the whitelist. *)
Definition doubled : request :=
  remote (ddo "2020-01-01T00:00:00Z"
              [("accesssWhiteList", JList [JStr carol; JStr carol])])
         "2020-01-01T12:00:00Z".

(** [bob], who is not the owner, asks to be put on the whitelist. *)
Definition intrusion : request :=
  remote (signed bob "2020-01-02T00:00:00Z"
            [("address", JStr bob); ("newOwner", JStr bob)])
         "2020-01-02T00:00:00Z".

(** The owner retires the sample DDO from elsewhere. *)
Definition withdrawal : request :=
  remote (signed alice "2020-01-04T00:00:00Z" []) "2020-01-04T00:00:00Z".

(** A partial update of the metadata whose second link has a name only. *)
Definition two_links : request :=
  remote (signed alice "2020-01-02T00:00:00Z"
            [("links", JList [JDict [("name", JStr "x");
                                     ("url", JStr "http://a");
                                     ("type", JStr "sample")];
                              JDict [("name", JStr "bad")]])])
         "2020-01-02T00:00:00Z".

Definition replaced_body : body :=
  match (update E did registered replacement).1 with
  | Reply b _ => b
  | _ => Text ""
  end.
End Sample.

(** * Properties *)

(** ** Reasoning about [flow] *)

Lemma bind_Go {A B} (m : flow A) (k : A -> flow B) (b : B) :
  m ≫= k = Go b -> exists a, m = Go a /\ k a = Go b.
Proof. destruct m as [a| |]; [|done..]. intros H. by exists a. Qed.

Lemma bind_of_Go {A B} (m : flow A) (k : A -> flow B) (a : A) :
  m = Go a -> m ≫= k = k a.
Proof. by intros ->. Qed.

(** Every response the computation returns on the way satisfies [P]. *)
Definition rets {A} (P : reply -> Prop) (m : flow A) : Prop :=
  match m with
  | Ret r => P r
  | _ => True
  end.

(** The computation returns no response on the way. *)
Abbreviation straight m := (rets (fun _ => False) m).

Lemma rets_bind {A B} P (m : flow A) (k : A -> flow B) :
  rets P m -> (forall a, m = Go a -> rets P (k a)) -> rets P (m ≫= k).
Proof. destruct m; simpl; auto. Qed.

Lemma rets_weaken {A} (P Q : reply -> Prop) (m : flow A) :
  rets P m -> (forall r, P r -> Q r) -> rets Q m.
Proof. destruct m; simpl; auto. Qed.

Lemma straight_rets {A} P (m : flow A) : straight m -> rets P m.
Proof. intros H. eapply rets_weaken; [exact H|]. intros _ []. Qed.

Lemma rets_for_each {A S} P (f : S -> A -> flow S) xs acc :
  (forall s x, rets P (f s x)) -> rets P (for_each xs acc f).
Proof.
  intros Hf. revert acc. induction xs as [|x xs IH]; intros acc; simpl; [done|].
  apply rets_bind; auto.
Qed.

Lemma rets_rewrite_from P f i l :
  (forall i x, rets P (f i x)) -> rets P (rewrite_from f i l).
Proof.
  intros Hf. revert i. induction l as [|x l IH]; intros i; simpl; [done|].
  apply rets_bind; [auto|]. intros y _. apply rets_bind; [auto|]. by intros.
Qed.

Lemma rets_run_Go st (m : flow (reply * store)) P r st' :
  rets P m -> ~ P r -> run st m = (r, st') -> m = Go (r, st') \/
  (exists e, m = Exc e /\ r = Uncaught e /\ st' = st).
Proof.
  destruct m as [[r0 s0]|r0|e]; simpl; intros HP Hn Heq; simplify_eq.
  - by left.
  - done.
  - right. by exists e.
Qed.

(** The status of a response the framework sends as it is. *)
Definition status (r : reply) : option Z :=
  match r with
  | Reply _ s => Some s
  | Bare s => Some s
  | Uncaught _ => None
  end.

(** ** Reasoning about dictionaries and paths *)

Lemma dict_get_set d k v k' :
  Dict.get (Dict.set d k v) k' = if String.eqb k k' then Some v else Dict.get d k'.
Proof.
  induction d as [|[k0 v0] d IH]; simpl.
  - done.
  - destruct (String.eqb k0 k) eqn:Hk; simpl.
    + apply String.eqb_eq in Hk as ->. by destruct (String.eqb k k').
    + destruct (String.eqb k0 k') eqn:Hk'.
      * apply String.eqb_eq in Hk' as ->. by rewrite String.eqb_sym, Hk.
      * exact IH.
Qed.

Lemma dict_get_set_eq d k v : Dict.get (Dict.set d k v) k = Some v.
Proof. by rewrite dict_get_set, String.eqb_refl. Qed.

Lemma dict_get_set_ne d k v k' :
  k <> k' -> Dict.get (Dict.set d k v) k' = Dict.get d k'.
Proof.
  intros Hne. rewrite dict_get_set.
  destruct (String.eqb k k') eqn:Hk; [|done]. by apply String.eqb_eq in Hk.
Qed.

Lemma getitem_dict o k v : py_getitem o k = Go v -> exists d, o = JDict d /\ Dict.get d k = Some v.
Proof.
  destruct o; simpl; try done. intros H. eexists; split; [done|].
  by destruct (Dict.get d k); simplify_eq.
Qed.

Lemma getitem_of_dict d k v : Dict.get d k = Some v -> py_getitem (JDict d) k = Go v.
Proof. simpl. by intros ->. Qed.

Lemma setitem_dict o k v o' :
  py_setitem o k v = Go o' -> exists d, o = JDict d /\ o' = JDict (Dict.set d k v).
Proof. destruct o; simpl; try done. intros H. simplify_eq. eauto. Qed.

Lemma getitem_setitem o k v o' k' :
  py_setitem o k v = Go o' ->
  py_getitem o' k' = if String.eqb k k' then Go v else py_getitem o k'.
Proof.
  intros (d & -> & ->)%setitem_dict. simpl. rewrite dict_get_set.
  by destruct (String.eqb k k').
Qed.

Lemma getitem_with_child d k v k' :
  py_getitem (with_child (JDict d) (Key k) v) k'
  = if String.eqb k k' then Go v else py_getitem (JDict d) k'.
Proof. simpl. rewrite dict_get_set. by destruct (String.eqb k k'). Qed.

Lemma set_path_dict o k p k' v o' :
  set_path o (Key k :: p) k' v = Go o' ->
  exists d child child',
    o = JDict d /\ Dict.get d k = Some child /\
    set_path child p k' v = Go child' /\
    o' = JDict (Dict.set d k child').
Proof.
  simpl. intros (child & Hget & (child' & Hset & Heq)%bind_Go)%bind_Go.
  apply getitem_dict in Hget as (d & -> & Hget). simpl in Heq. simplify_eq.
  eauto 8.
Qed.

(** A path through dictionaries, read after an assignment at the same place. *)
Lemma get_set_path_keys o ks k v o' :
  set_path o (map Key ks) k v = Go o' ->
  get_path o' (map Key (ks ++ [k])) = Go v.
Proof.
  revert o o'. induction ks as [|k0 ks IH]; intros o o'; simpl.
  - intros (d & -> & ->)%setitem_dict. simpl. by rewrite dict_get_set_eq.
  - intros (child & Hget & (child' & Hset & Heq)%bind_Go)%bind_Go.
    apply getitem_dict in Hget as (d & -> & Hget). simpl in Heq. simplify_eq.
    simpl. rewrite dict_get_set_eq. simpl. by eapply IH.
Qed.

(** An assignment below the key [k] leaves the other keys of [o] as they were. *)
Lemma getitem_set_path_other o k p k' v o' k0 :
  set_path o (Key k :: p) k' v = Go o' -> k <> k0 ->
  py_getitem o' k0 = py_getitem o k0.
Proof.
  intros (d & child & child' & -> & _ & _ & ->)%set_path_dict Hne.
  simpl. by rewrite dict_get_set_ne.
Qed.

(** ** Which responses the helpers return *)

Create HintDb rets.

Ltac rets_cases :=
  repeat (simpl; match goal with
  | |- rets _ (match ?x with _ => _ end) => destruct x
  | |- rets _ (if ?c then _ else _) => destruct c
  end); simpl; try done.

Lemma straight_getitem o k : straight (py_getitem o k).
Proof. unfold py_getitem. rets_cases. Qed.

Lemma straight_getindex o i : straight (py_getindex o i).
Proof. unfold py_getindex. rets_cases. Qed.

Lemma straight_get o s : straight (py_get o s).
Proof. destruct s; [apply straight_getitem|apply straight_getindex]. Qed.

Lemma straight_setitem o k v : straight (py_setitem o k v).
Proof. unfold py_setitem. rets_cases. Qed.

Lemma straight_contains k o : straight (py_contains k o).
Proof. unfold py_contains. rets_cases. Qed.

Lemma straight_iter o : straight (py_iter o).
Proof. unfold py_iter. rets_cases. Qed.

#[global] Hint Resolve straight_getitem straight_getindex straight_get
  straight_setitem straight_contains straight_iter : rets.

Lemma straight_get_path o p : straight (get_path o p).
Proof.
  revert o. induction p as [|s p IH]; intros o; simpl; [done|].
  apply rets_bind; auto with rets.
Qed.

Lemma straight_set_path o p k v : straight (set_path o p k v).
Proof.
  revert o. induction p as [|s p IH]; intros o; simpl; [auto with rets|].
  apply rets_bind; [auto with rets|]. intros child _.
  apply rets_bind; [auto|]. by intros.
Qed.

Lemma straight_format_timestamp E t : straight (format_timestamp E t).
Proof. unfold format_timestamp. rets_cases. Qed.

Lemma straight_first_metadata l : straight (first_metadata l).
Proof.
  induction l as [|s l IH]; simpl; [done|].
  apply rets_bind; [auto with rets|]. intros ty _. by destruct (py_eq_str _ _).
Qed.

#[global] Hint Resolve straight_get_path straight_set_path
  straight_format_timestamp straight_first_metadata : rets.

Lemma straight_get_metadata o : straight (_get_metadata o).
Proof. unfold _get_metadata. apply rets_bind; auto with rets. Qed.

#[global] Hint Resolve straight_get_metadata : rets.

Lemma straight_get_main_metadata o : straight (_get_main_metadata o).
Proof. unfold _get_main_metadata. apply rets_bind; auto with rets. Qed.

Lemma straight_reorder o : straight (_reorder_services o).
Proof.
  unfold _reorder_services. apply rets_bind; [auto with rets|]. intros items _.
  apply rets_bind.
  - apply rets_for_each. intros acc x. apply rets_bind; [auto with rets|]. by intros.
  - intros result _. apply rets_for_each. intros acc x.
    apply rets_bind; [auto with rets|]. by intros.
Qed.

Lemma straight_services_by_type l i found : straight (services_by_type l i found).
Proof.
  revert i found. induction l as [|s l IH]; intros i found; simpl; [done|].
  apply rets_bind; [auto with rets|]. intros ty _. by destruct (hashable ty).
Qed.

Lemma straight_dao_register st record id : straight (dao.register st record id).
Proof. unfold dao.register. rets_cases. Qed.

Lemma straight_round x : straight (Round.round x).
Proof. unfold Round.round. rets_cases. Qed.

Lemma straight_count o x : straight (py_count o x).
Proof. unfold py_count. rets_cases. Qed.

Lemma straight_append o x : straight (py_append o x).
Proof. unfold py_append. rets_cases. Qed.

Lemma straight_remove o x : straight (py_remove o x).
Proof. unfold py_remove. rets_cases. Qed.

#[global] Hint Resolve straight_get_main_metadata straight_reorder
  straight_services_by_type straight_dao_register straight_round
  straight_count straight_append straight_remove : rets.

(** The responses of a validation helper are refusals with status 400. *)
Definition refusal (r : reply) : Prop := status r = Some 400.

Lemma refusal_check_required required data method :
  rets refusal (check_required_attributes required data method).
Proof.
  unfold check_required_attributes. destruct data; try done.
  destruct d as [|kv d]; [done|].
  apply rets_for_each. intros _ attr. by destruct (Dict.mem _ _).
Qed.

Lemma refusal_no_url_in files method : rets refusal (no_url_in files method).
Proof.
  induction files as [|f files IH]; simpl; [done|].
  apply rets_bind; [apply straight_rets; auto with rets|].
  intros [] _; [done|exact IH].
Qed.

Lemma refusal_check_no_urls main method :
  rets refusal (check_no_urls_in_files main method).
Proof.
  unfold check_no_urls_in_files.
  apply rets_bind; [apply straight_rets; auto with rets|]. intros [] _; [|done].
  apply rets_bind; [apply straight_rets; auto with rets|]. intros files _.
  apply rets_bind; [apply straight_rets; auto with rets|]. intros items _.
  apply refusal_no_url_in.
Qed.

Lemma refusal_validate_date E date : rets refusal (validate_date_format E date).
Proof. unfold validate_date_format. rets_cases. Qed.

Lemma refusal_free_assets_gate E service : rets refusal (free_assets_gate E service).
Proof.
  unfold free_assets_gate. destruct (String.eqb _ _); [|done].
  apply rets_bind; [apply straight_rets; auto with rets|]. intros price _.
  by destruct (negb _).
Qed.

#[global] Hint Resolve refusal_check_required refusal_no_url_in
  refusal_check_no_urls refusal_validate_date refusal_free_assets_gate : rets.

Lemma straight_assert_dict data : straight (assert_dict data).
Proof. unfold assert_dict. by destruct (is_dict data). Qed.

#[global] Hint Resolve straight_assert_dict : rets.

Lemma rets_rewrite_items P f container :
  (forall i x, rets P (f i x)) -> rets P (rewrite_items f container).
Proof.
  intros Hf. unfold rewrite_items.
  destruct container; simpl; try done;
    (apply rets_bind; [by apply rets_rewrite_from|]; by intros).
Qed.

Lemma rets_try_500 {A} P (m : flow A) :
  rets P m -> (forall e, P (Reply (SomeError e) 500)) -> rets P (try_500 m).
Proof. destruct m; simpl; auto. Qed.

Lemma rets_call P st (m : flow (reply * store)) : rets P (call st m).
Proof. by destruct m. Qed.

(** A response returned on the way by [register] or [update] is a refusal,
    the bare status 400, or the report of a caught exception (500). *)
Definition failure (r : reply) : Prop := status r = Some 400 \/ status r = Some 500.

Ltac rets_leaf :=
  unfold refusal, failure in *; simpl in *;
  first [done | intuition congruence].

(** The analysis of a computation built with binds, leaf by leaf. *)
Ltac rets_go :=
  repeat (intros; match goal with
  | |- rets _ (Go _) => exact I
  | |- rets _ (Exc _) => exact I
  | |- rets _ (Ret _) => rets_leaf
  | |- rets _ (_ ≫= _) => apply rets_bind
  | |- rets _ (try_500 _) => apply rets_try_500
  | |- rets _ (call _ _) => apply rets_call
  | |- rets _ (rewrite_items _ _) => apply rets_rewrite_items
  | |- rets _ (for_each _ _ _) => apply rets_for_each
  | |- rets _ (let _ := _ in _) => cbv zeta
  | |- rets _ (if ?c then _ else _) => destruct c
  | |- rets _ (match ?x with _ => _ end) => destruct x
  | |- rets _ _ =>
      solve [auto with rets
            | apply straight_rets; auto with rets
            | eapply rets_weaken; [solve [auto with rets]|]; intros; rets_leaf]
  | |- _ => rets_leaf
  end).

Lemma refusal_register_service E rq i service :
  rets refusal (register_service E rq i service).
Proof. unfold register_service. rets_go. Qed.

Lemma refusal_update_gate E services : rets refusal (update_gate E services).
Proof. unfold update_gate. rets_go. Qed.

#[global] Hint Resolve refusal_register_service refusal_update_gate : rets.

Lemma failure_register_flow E st rq : rets failure (register_flow E st rq).
Proof. unfold register_flow. rets_go. Qed.

(** ** ServiceOrderer *)

Lemma for_each_select (p : json -> bool) (items acc : list json) :
  Forall typed items ->
  (forall s ty, py_getitem s "type" = Go ty -> p s = py_eq_str ty "metadata") ->
  for_each items acc (fun result service =>
    ty ← py_getitem service "type";
    Go (if py_eq_str ty "metadata" then result ++ [service] else result))
  = Go (acc ++ List.filter p items).
Proof.
  intros Hty Hp. revert acc.
  induction Hty as [|s rest [ty Hs] _ IH]; intros acc; simpl.
  - by rewrite app_nil_r.
  - rewrite Hs. simpl. rewrite (Hp s ty Hs).
    destruct (py_eq_str ty "metadata"); rewrite IH; [|done].
    by rewrite <- app_assoc.
Qed.

Lemma for_each_reject (p : json -> bool) (items acc : list json) :
  Forall typed items ->
  (forall s ty, py_getitem s "type" = Go ty -> p s = py_eq_str ty "metadata") ->
  for_each items acc (fun result service =>
    ty ← py_getitem service "type";
    Go (if negb (py_eq_str ty "metadata") then result ++ [service] else result))
  = Go (acc ++ List.filter (fun x => negb (p x)) items).
Proof.
  intros Hty Hp. revert acc.
  induction Hty as [|s rest [ty Hs] _ IH]; intros acc; simpl.
  - by rewrite app_nil_r.
  - rewrite Hs. simpl. rewrite (Hp s ty Hs).
    destruct (py_eq_str ty "metadata"); simpl; rewrite IH; [done|].
    by rewrite <- app_assoc.
Qed.

Lemma is_metadata_type s ty :
  py_getitem s "type" = Go ty -> is_metadata s = py_eq_str ty "metadata".
Proof. intros H. unfold is_metadata. by rewrite H. Qed.

Lemma reorder_typed (services : list json) :
  Forall typed services ->
  _reorder_services (JList services)
  = Go (List.filter is_metadata services ++
        List.filter (fun s => negb (is_metadata s)) services).
Proof.
  intros Hty. unfold _reorder_services. simpl.
  rewrite (for_each_select is_metadata) by auto using is_metadata_type.
  simpl.
  by rewrite (for_each_reject is_metadata) by auto using is_metadata_type.
Qed.

Lemma filter_split_perm {A} (p : A -> bool) (l : list A) :
  Permutation l (List.filter p l ++ List.filter (fun x => negb (p x)) l).
Proof.
  induction l as [|x l IH]; simpl; [constructor|].
  destruct (p x); simpl.
  - by constructor.
  - by apply Permutation_cons_app.
Qed.

Lemma filter_all {A} (p : A -> bool) (l : list A) :
  Forall (fun x => p x = true) (List.filter p l).
Proof.
  apply List.Forall_forall. intros x Hx. by apply List.filter_In in Hx as [_ ?].
Qed.

(** C5: on every list of services, each of which has a [type], the reorder
    operation returns a stable partition: the [metadata] entries first, in
    their relative order, then all the others in their relative order; the
    result is a permutation of the input, so no entry is added, removed or
    modified. *)
Theorem reorder_services_stable_partition (services : list json) :
  Forall typed services ->
  exists result,
    _reorder_services (JList services) = Go result /\
    stable_partition is_metadata services result /\
    Permutation services result.
Proof.
  intros Hty. eexists. split; [by apply reorder_typed|]. split.
  - exists (List.filter is_metadata services),
           (List.filter (fun s => negb (is_metadata s)) services).
    repeat split; [apply filter_all|].
    eapply Forall_impl; [apply (filter_all (fun s => negb (is_metadata s)))|].
    simpl. intros x Hx. by apply negb_true_iff.
  - apply filter_split_perm.
Qed.

Lemma reorder_services_stable_partition_witness :
  exists result,
    _reorder_services (JList [Sample.access_service; Sample.metadata_service []])
    = Go result /\
    stable_partition is_metadata
      [Sample.access_service; Sample.metadata_service []] result /\
    Permutation [Sample.access_service; Sample.metadata_service []] result.
Proof.
  apply (reorder_services_stable_partition
           [Sample.access_service; Sample.metadata_service []]).
  repeat constructor; eexists; reflexivity.
Defined.

(** ** Create *)

Lemma for_each_typed (items acc result : list json) (keep : bool -> bool) :
  for_each items acc (fun result service =>
    ty ← py_getitem service "type";
    Go (if keep (py_eq_str ty "metadata") then result ++ [service] else result))
  = Go result ->
  Forall typed items.
Proof.
  revert acc. induction items as [|s items IH]; intros acc; simpl; [by constructor|].
  intros (acc' & (ty & Hty & Hacc)%bind_Go & Hrest)%bind_Go.
  constructor; [by exists ty|by eapply IH].
Qed.

Lemma reorder_result services reordered :
  _reorder_services services = Go reordered ->
  exists items,
    py_iter services = Go items /\ Forall typed items /\
    reordered = List.filter is_metadata items ++
                List.filter (fun s => negb (is_metadata s)) items.
Proof.
  intros H. pose proof H as H0. unfold _reorder_services in H.
  apply bind_Go in H as (items & Hiter & H).
  apply bind_Go in H as (metas & Hmetas & _).
  apply (for_each_typed _ _ _ (fun b => b)) in Hmetas.
  exists items. split; [done|]. split; [done|].
  unfold _reorder_services in H0. rewrite Hiter in H0. simpl in H0.
  rewrite (for_each_select is_metadata) in H0 by auto using is_metadata_type.
  simpl in H0.
  rewrite (for_each_reject is_metadata) in H0 by auto using is_metadata_type.
  by simplify_eq.
Qed.

Lemma first_metadata_others (others : list json) :
  Forall typed others -> Forall (fun s => is_metadata s = false) others ->
  first_metadata others = Go JNull.
Proof.
  induction 1 as [|s others [ty Hty] _ IH]; intros Hno; simpl; [done|].
  inversion Hno as [|? ? Hs Hrest]; subst.
  rewrite Hty. simpl. rewrite <- (is_metadata_type _ _ Hty), Hs. by apply IH.
Qed.

Lemma first_metadata_head (m : json) (rest : list json) :
  typed m -> is_metadata m = true -> first_metadata (m :: rest) = Go m.
Proof.
  intros [ty Hty] Hm. simpl. rewrite Hty. simpl.
  by rewrite <- (is_metadata_type _ _ Hty), Hm.
Qed.

Lemma rewrite_from_Forall2 f i l l' :
  rewrite_from f i l = Go l' ->
  Forall2 (fun x y => exists j, f j x = Go y) l l'.
Proof.
  revert i l'. induction l as [|x l IH]; intros i l'; simpl.
  - intros ?; simplify_eq. constructor.
  - intros (y & Hy & (ys & Hys & ?)%bind_Go)%bind_Go. simplify_eq.
    constructor; [by exists i|by eapply IH].
Qed.

Lemma typed_set_path_attributes service p k v service' :
  set_path service (Key "attributes" :: p) k v = Go service' ->
  py_getitem service' "type" = py_getitem service "type".
Proof. intros H. by eapply getitem_set_path_other. Qed.

Lemma register_service_result E rq i service service' :
  register_service E rq i service = Go service' ->
  py_getitem service' "type" = py_getitem service "type" /\
  typed service' /\
  (is_metadata service' = true ->
   get_path service' [Key "attributes"; Key "curation"] = Go initial_curation).
Proof.
  unfold register_service.
  intros (ty & Hty & H)%bind_Go.
  destruct (py_eq_str ty "metadata") eqn:Hmeta.
  - apply bind_Go in H as (_ & _ & H).
    apply bind_Go in H as (dateCreated & _ & H).
    apply bind_Go in H as (ts & _ & H).
    apply bind_Go in H as (s1 & H1 & H).
    apply bind_Go in H as (s2 & H2 & H).
    assert (Hsame : py_getitem service' "type" = py_getitem service "type").
    { rewrite (typed_set_path_attributes _ _ _ _ _ H),
        (typed_set_path_attributes _ _ _ _ _ H2).
      by apply (typed_set_path_attributes _ _ _ _ _ H1). }
    split; [done|]. split; [exists ty; by rewrite Hsame|].
    intros _. by apply (get_set_path_keys _ ["attributes"]) in H.
  - simplify_eq. split; [done|]. split; [by exists ty|].
    unfold is_metadata. rewrite Hty, Hmeta. done.
Qed.

Lemma not_typed_str s : ~ typed (JStr s).
Proof. by intros [ty Hty]. Qed.

(** An item the loop left in the container is what its body made of an item. *)
Lemma rewrite_items_item f container container' items y :
  rewrite_items f container = Go container' ->
  py_iter container' = Go items ->
  In y items -> typed y ->
  exists j x, f j x = Go y.
Proof.
  unfold rewrite_items. intros Hrw Hiter Hin Hty.
  destruct container; simpl in Hrw; try done.
  - exfalso. apply bind_Go in Hrw as (? & _ & ?). simplify_eq. simpl in Hiter.
    simplify_eq. apply List.in_map_iff in Hin as (c & <- & _).
    by apply not_typed_str in Hty.
  - apply bind_Go in Hrw as (l' & Hl' & ?). simplify_eq. simpl in Hiter.
    simplify_eq. apply rewrite_from_Forall2 in Hl'.
    clear Hty. induction Hl' as [|x y' l l' [j Hj] _ IH]; [done|].
    destruct Hin as [->|Hin]; eauto.
  - exfalso. apply bind_Go in Hrw as (? & _ & ?). simplify_eq. simpl in Hiter.
    simplify_eq. apply List.in_map_iff in Hin as (c & <- & _).
    by apply not_typed_str in Hty.
Qed.

Lemma run_register_201 E st rq b st' :
  register E st rq = (Reply b 201, st') ->
  register_flow E st rq = Go (Reply b 201, st').
Proof.
  unfold register, run. pose proof (failure_register_flow E st rq) as Hf.
  destruct (register_flow E st rq) as [[r s]|r|e]; simpl in *; intros H; simplify_eq.
  - done.
  - destruct Hf; simplify_eq.
Qed.

Lemma try_500_Go {A} (m : flow A) (a : A) : try_500 m = Go a -> m = Go a.
Proof. by destruct m. Qed.

(** C2: when [register] answers 201, the document it stored under the
    payload's [id] has a [metadata] service at index 0 of [service], has
    [updated] equal to the normalized [created], has an empty
    [accesssWhiteList] when the payload has no such field, and its metadata
    service carries the curation [{rating: 0.0, numVotes: 0, isListed: true}]. *)
Theorem register_stored_document E st rq b st' :
  register E st rq = (Reply b 201, st') ->
  exists did record created ts metadata others,
    py_getitem (payload rq) "id" = Go (JStr did) /\
    st' = <[did := record]> st /\
    py_getitem (payload rq) "created" = Go created /\
    format_timestamp E created = Go ts /\
    py_getitem record "created" = Go (JStr ts) /\
    py_getitem record "updated" = Go (JStr ts) /\
    (py_contains "accesssWhiteList" (payload rq) = Go false ->
     py_getitem record "accesssWhiteList" = Go (JList [])) /\
    py_getitem record "service" = Go (JList (metadata :: others)) /\
    is_metadata metadata = true /\
    _get_metadata (JList (metadata :: others)) = Go metadata /\
    get_path metadata [Key "attributes"; Key "curation"] = Go initial_curation.
Proof.
  intros H%run_register_201. unfold register_flow in H. cbv zeta in H.
  apply bind_Go in H as ([] & Hdict & H).
  apply bind_Go in H as (? & _ & H).
  apply bind_Go in H as (? & _ & H).
  apply bind_Go in H as (services0 & _ & H).
  apply bind_Go in H as (main & _ & H).
  apply bind_Go in H as (? & _ & H).
  apply bind_Go in H as (created & Hcreated & H).
  apply bind_Go in H as (? & _ & H).
  apply bind_Go in H as (ts & Hts & H).
  apply bind_Go in H as (r1 & R1 & H).
  apply bind_Go in H as (created' & Hcreated' & H).
  apply bind_Go in H as (r2 & R2 & H).
  apply bind_Go in H as (has_list & Hhas & H).
  apply bind_Go in H as (r3 & R3 & H).
  apply bind_Go in H as (services1 & S1 & H).
  apply bind_Go in H as (services2 & S2 & H).
  apply bind_Go in H as (services3 & S3 & H).
  apply bind_Go in H as (reordered & Hre & H).
  apply bind_Go in H as (r5 & R5 & H).
  apply bind_Go in H as (services4 & S4 & H).
  apply bind_Go in H as (metadata & Hmeta & H).
  apply bind_Go in H as (attributes & Hattr & H).
  destruct (negb (is_valid_dict_remote E attributes)); [done|].
  apply try_500_Go in H.
  apply bind_Go in H as (id & Hid & H).
  apply bind_Go in H as (st1 & Hst & H).
  simplify_eq.
  assert (Hc : created' = JStr ts).
  { rewrite (getitem_setitem _ _ _ _ _ R1) in Hcreated'. simpl in Hcreated'.
    by simplify_eq. }
  subst created'.
  destruct (getitem_dict _ _ _ S1) as (d3 & -> & Hd3).
  rewrite getitem_with_child in S3. simpl in S3. simplify_eq.
  rewrite (getitem_setitem _ _ _ _ _ R5) in S4. simpl in S4. simplify_eq.
  (* the services visited by the loop form a list *)
  apply reorder_result in Hre as (items & Hiter & Htyped & ->).
  set (metas := List.filter is_metadata items) in *.
  set (others := List.filter (fun s => negb (is_metadata s)) items) in *.
  assert (Hothers : first_metadata others = Go JNull).
  { apply first_metadata_others.
    - apply List.Forall_forall. intros s [Hs _]%List.filter_In.
      by eapply List.Forall_forall in Htyped.
    - eapply Forall_impl; [apply (filter_all (fun s => negb (is_metadata s)))|].
      simpl. intros s Hs. by apply negb_true_iff. }
  unfold _get_metadata in Hmeta. simpl in Hmeta.
  destruct metas as [|m ms] eqn:Hmetas.
  { simpl in Hmeta. rewrite Hothers in Hmeta. by simplify_eq. }
  assert (Hmin : In m (List.filter is_metadata items)).
  { fold metas. rewrite Hmetas. by left. }
  apply List.filter_In in Hmin as [Hmin Hmm].
  assert (Htm : typed m) by (by eapply List.Forall_forall in Htyped).
  rewrite <- app_comm_cons in Hmeta.
  rewrite (first_metadata_head m _ Htm Hmm) in Hmeta. simplify_eq.
  (* the loop left the curation in every metadata service *)
  assert (Hcur : get_path metadata [Key "attributes"; Key "curation"]
                 = Go initial_curation).
  { destruct (rewrite_items_item _ _ _ _ _ S2 Hiter Hmin Htm) as (j & s & Hs).
    apply register_service_result in Hs as (_ & _ & Hs). by apply Hs. }
  destruct id as [| | | |did| |]; simpl in Hst; simplify_eq.
  exists did, r5, created, ts, metadata, (ms ++ others).
  assert (Hget : forall k, k <> "service" ->
            py_getitem r5 k = py_getitem (JDict d3) k).
  { intros k Hk. rewrite (getitem_setitem _ _ _ _ _ R5), getitem_with_child.
    destruct (String.eqb "service" k) eqn:Heq; [|done].
    by apply String.eqb_eq in Heq. }
  assert (Hwl : forall k v, k <> "accesssWhiteList" ->
            py_getitem r2 k = Go v -> py_getitem (JDict d3) k = Go v).
  { intros k v Hk Hv.
    assert (Hany : forall w, py_setitem r2 "accesssWhiteList" w = Go (JDict d3) ->
              py_getitem (JDict d3) k = Go v).
    { intros w Hw. rewrite (getitem_setitem _ _ _ _ _ Hw).
      destruct (String.eqb "accesssWhiteList" k) eqn:Heq; [|done].
      by apply String.eqb_eq in Heq. }
    destruct (negb has_list); [by eapply Hany|].
    apply bind_Go in R3 as (white_list & _ & R3).
    destruct (negb (is_list white_list)); by eapply Hany. }
  repeat split; try done.
  - rewrite Hget by done. apply Hwl; [done|].
    rewrite (getitem_setitem _ _ _ _ _ R2). simpl. done.
  - rewrite Hget by done. apply Hwl; [done|].
    by rewrite (getitem_setitem _ _ _ _ _ R2).
  - intros Hno. rewrite Hhas in Hno. simplify_eq. simpl in R3.
    rewrite Hget by done. by rewrite (getitem_setitem _ _ _ _ _ R3).
  - by rewrite (getitem_setitem _ _ _ _ _ R5).
  - unfold _get_metadata. simpl py_iter. cbn [mbind flow_bind].
    by apply first_metadata_head.
Qed.

Lemma register_stored_document_witness :
  exists did record created ts metadata others,
    py_getitem (payload Sample.creation) "id" = Go (JStr did) /\
    Sample.registered = <[did := record]> ∅ /\
    py_getitem (payload Sample.creation) "created" = Go created /\
    format_timestamp Sample.E created = Go ts /\
    py_getitem record "created" = Go (JStr ts) /\
    py_getitem record "updated" = Go (JStr ts) /\
    (py_contains "accesssWhiteList" (payload Sample.creation) = Go false ->
     py_getitem record "accesssWhiteList" = Go (JList [])) /\
    py_getitem record "service" = Go (JList (metadata :: others)) /\
    is_metadata metadata = true /\
    _get_metadata (JList (metadata :: others)) = Go metadata /\
    get_path metadata [Key "attributes"; Key "curation"] = Go initial_curation.
Proof.
  apply (register_stored_document Sample.E ∅ Sample.creation
           Sample.created_body Sample.registered).
  vm_compute. reflexivity.
Defined.

(** ** FullUpdate *)

Lemma failure_update_write E did st rq record :
  rets failure (update_write E did st rq record).
Proof. unfold update_write. rets_go. Qed.

Lemma failure_update_local E did st rq : rets failure (update_local E did st rq).
Proof.
  unfold update_local. pose proof (failure_update_write E did st rq).
  rets_go.
Qed.

Lemma update_local_record E did st rq r st' :
  update_local E did st rq = Go (r, st') ->
  exists record created ts,
    py_getitem (payload rq) "created" = Go created /\
    format_timestamp E created = Go ts /\
    py_getitem record "created" = Go (JStr ts) /\
    py_getitem record "updated" = Go (JStr ts) /\
    (forall k, k <> "created" -> k <> "updated" -> k <> "service" ->
       py_getitem record k = py_getitem (payload rq) k) /\
    update_write E did st rq record = Go (r, st').
Proof.
  unfold update_local. cbv zeta. intros H.
  apply bind_Go in H as (? & _ & H).
  apply bind_Go in H as (? & _ & H).
  apply bind_Go in H as (services0 & _ & H).
  apply bind_Go in H as (main & _ & H).
  apply bind_Go in H as (? & _ & H).
  apply bind_Go in H as (created & Hcreated & H).
  apply bind_Go in H as (? & _ & H).
  apply bind_Go in H as (ts & Hts & H).
  apply bind_Go in H as (r1 & R1 & H).
  apply bind_Go in H as (created' & Hcreated' & H).
  apply bind_Go in H as (r2 & R2 & H).
  apply bind_Go in H as (services1 & S1 & H).
  apply bind_Go in H as (reordered & Hre & H).
  apply bind_Go in H as (r3 & R3 & H).
  apply bind_Go in H as (services2 & S2 & H).
  apply bind_Go in H as (items & Hitems & H).
  apply bind_Go in H as (by_type & Hby & H).
  apply bind_Go in H as ([index service] & Hfound & H).
  apply bind_Go in H as (main1 & _ & H).
  apply bind_Go in H as (dateCreated & _ & H).
  apply bind_Go in H as (ts1 & _ & H).
  apply bind_Go in H as (service1 & _ & H).
  apply bind_Go in H as (main2 & _ & H).
  apply bind_Go in H as (datePublished & _ & H).
  apply bind_Go in H as (ts2 & _ & H).
  apply bind_Go in H as (service2 & _ & H).
  apply bind_Go in H as (services3 & _ & H).
  apply bind_Go in H as (metadata & _ & H).
  apply bind_Go in H as (attributes & _ & H).
  destruct (negb (is_valid_dict_remote E attributes)); [done|].
  rewrite (getitem_setitem _ _ _ _ _ R1) in Hcreated'. simpl in Hcreated'.
  simplify_eq.
  destruct (setitem_dict _ _ _ _ R3) as (d2 & -> & ->).
  eexists _, created, ts. split; [done|]. split; [done|].
  split; [|split; [|split; [|exact H]]].
  - rewrite getitem_with_child. simpl String.eqb. cbv iota.
    rewrite (getitem_setitem _ _ _ _ _ R3). simpl String.eqb. cbv iota.
    rewrite (getitem_setitem _ _ _ _ _ R2). simpl String.eqb. cbv iota.
    by rewrite (getitem_setitem _ _ _ _ _ R1).
  - rewrite getitem_with_child. simpl String.eqb. cbv iota.
    rewrite (getitem_setitem _ _ _ _ _ R3). simpl String.eqb. cbv iota.
    by rewrite (getitem_setitem _ _ _ _ _ R2).
  - intros k Hc Hu Hs.
    rewrite getitem_with_child, (getitem_setitem _ _ _ _ _ R3),
      (getitem_setitem _ _ _ _ _ R2), (getitem_setitem _ _ _ _ _ R1).
    destruct (String.eqb "service" k) eqn:H1; [by apply String.eqb_eq in H1|].
    destruct (String.eqb "updated" k) eqn:H2; [by apply String.eqb_eq in H2|].
    destruct (String.eqb "created" k) eqn:H3; [by apply String.eqb_eq in H3|].
    done.
Qed.

Lemma update_write_Go E did st rq record r st' :
  update_write E did st rq record = Go (r, st') ->
  (dao.get st did = None /\ r = Reply (_sanitize_record record) 201) \/
  (exists old, dao.get st did = Some old /\
     r = Reply (_sanitize_record record) 200 /\
     st' = dao.update st record did).
Proof.
  unfold update_write. intros H%try_500_Go.
  destruct (dao.get st did) as [old|].
  - right. exists old. split; [done|].
    apply bind_Go in H as (services & _ & H).
    apply bind_Go in H as (? & _ & H). by simplify_eq.
  - left. split; [done|].
    apply bind_Go in H as ([r0 st0] & _ & H). by simplify_eq.
Qed.

(** A response of [update] whose status is none of 400, 401 and 500 comes
    from the end of the handler, for a caller on the host itself. *)
Lemma update_answer E did st rq b s st' :
  update E did st rq = (Reply b s, st') ->
  s <> 400 -> s <> 401 -> s <> 500 ->
  remote_caller (remote_addr rq) = false /\
  update_local E did st rq = Go (Reply b s, st').
Proof.
  unfold update, update_flow, run. intros H H400 H401 H500.
  pose proof (straight_assert_dict (payload rq)) as Ha.
  destruct (assert_dict (payload rq)) as [[]| |]; simpl in H, Ha; [|done..].
  destruct (remote_caller (remote_addr rq)); simpl in H.
  { unfold no_rights in H. by simplify_eq. }
  split; [done|].
  pose proof (failure_update_local E did st rq) as Hf.
  destruct (update_local E did st rq) as [[r0 s0]|r0|e]; simpl in *; simplify_eq.
  - done.
  - unfold failure in Hf. simpl in Hf. destruct Hf; simplify_eq.
Qed.

(** C10: a FullUpdate of a registered document that answers 200 stores a
    document whose [updated] is the normalized [created] of the payload,
    whatever the clock and the [updated] stored before; and there is such
    an update that moves [updated] back in time, before the value stored
    and before the clock. *)
Theorem full_update_sets_updated_to_created :
  (forall E did st rq old b st',
     dao.get st did = Some old ->
     update E did st rq = (Reply b 200, st') ->
     exists record created ts,
       py_getitem (payload rq) "created" = Go created /\
       format_timestamp E created = Go ts /\
       st' = dao.update st record did /\
       py_getitem record "updated" = Go (JStr ts)) /\
  (exists E did st rq old b record previous moved,
     dao.get st did = Some old /\
     py_getitem old "updated" = Go (JStr previous) /\
     update E did st rq = (Reply b 200, dao.update st record did) /\
     py_getitem record "updated" = Go (JStr moved) /\
     earlier E moved previous /\
     earlier E moved (now rq)).
Proof.
  split.
  - intros E did st rq old b st' Hold H.
    apply update_answer in H as [_ H]; [|done..].
    apply update_local_record in H
      as (record & created & ts & Hc & Hts & _ & Hu & _ & H).
    apply update_write_Go in H as [[Hnone _]|(old' & _ & _ & ->)].
    { rewrite Hold in Hnone. done. }
    by exists record, created, ts.
  - exists Sample.E, Sample.did, Sample.registered, Sample.replacement,
      Sample.stored, Sample.replaced_body,
      (default JNull (Sample.replaced !! Sample.did)),
      "2020-01-01T00:00:00Z"%string, "2019-06-01T00:00:00Z"%string.
    split; [by vm_compute|]. split; [by vm_compute|].
    split; [by vm_compute|]. split; [by vm_compute|].
    split; eexists _, _; by vm_compute.
Qed.

Lemma full_update_sets_updated_to_created_witness :
  exists record created ts,
    py_getitem (payload Sample.replacement) "created" = Go created /\
    format_timestamp Sample.E created = Go ts /\
    Sample.replaced = dao.update Sample.registered record Sample.did /\
    py_getitem record "updated" = Go (JStr ts).
Proof.
  apply (proj1 full_update_sets_updated_to_created Sample.E Sample.did
           Sample.registered Sample.replacement Sample.stored
           Sample.replaced_body Sample.replaced).
  - vm_compute. reflexivity.
  - vm_compute. reflexivity.
Defined.

(** C1, as the code has it: a FullUpdate whose body is a JSON object is
    authorized by the caller's address alone.  When the address is neither
    [127.0.0.1] nor [localhost], the store is not mutated and the response is
    [You have no rights] with status 401; and the handler answers 401 in no
    other case, whatever [updated] and [signature] the payload carries. *)
Theorem full_update_gated_by_address E did st rq :
  is_dict (payload rq) = true ->
  (remote_caller (remote_addr rq) = true ->
   update E did st rq = (no_rights, st)) /\
  (forall b st', update E did st rq = (Reply b 401, st') ->
   remote_caller (remote_addr rq) = true /\ st' = st).
Proof.
  intros Hdict. unfold update, update_flow, assert_dict. rewrite Hdict.
  cbn [mbind flow_bind]. destruct (remote_caller (remote_addr rq)) eqn:Hip.
  - split; [done|]. simpl. intros b st' H. by simplify_eq.
  - split; [done|]. intros b st' H. exfalso.
    pose proof (failure_update_local E did st rq) as Hf.
    destruct (update_local E did st rq) as [[r0 s0]|r0|e] eqn:Hl;
      simpl in *; simplify_eq.
    + apply update_local_record in Hl as (record & ? & ? & _ & _ & _ & _ & _ & Hw).
      apply update_write_Go in Hw as [[_ ?]|(? & _ & ? & _)]; simplify_eq.
    + unfold failure in Hf. simpl in Hf. destruct Hf; simplify_eq.
Qed.

Lemma full_update_gated_by_address_witness :
  (remote_caller (remote_addr Sample.outsider) = true ->
   update Sample.E Sample.did Sample.registered Sample.outsider
   = (no_rights, Sample.registered)) /\
  (forall b st',
     update Sample.E Sample.did Sample.registered Sample.outsider
     = (Reply b 401, st') ->
     remote_caller (remote_addr Sample.outsider) = true /\
     st' = Sample.registered).
Proof.
  apply (full_update_gated_by_address Sample.E Sample.did Sample.registered
           Sample.outsider).
  reflexivity.
Defined.

(** C1, as stated, fails: a FullUpdate sent from the host itself, signed by
    someone who is not the owner of the registered document, is answered 200
    and replaces the stored document. *)
Lemma full_update_owner_gate_counterexample :
  ~ (forall E did st rq doc updated signature,
       dao.get st did = Some doc ->
       py_getitem (payload rq) "updated" = Go updated ->
       py_getitem (payload rq) "signature" = Go signature ->
       _can_update_did E doc updated signature = false ->
       exists b, update E did st rq = (Reply b 401, st)).
Proof.
  intros H.
  destruct (H Sample.E Sample.did Sample.registered Sample.forged Sample.stored
              (JStr "2020-03-01T00:00:00Z") (JStr Sample.bob))
    as [b Hb]; try (vm_compute; reflexivity).
  vm_compute in Hb. discriminate Hb.
Qed.

(** ** PartialMetadataUpdate *)

(** C4: on the links [{name: x, url: http://a, type: sample}, {name: bad}]
    the owner's partial update does not drop the second link: the lookup of
    its [url] raises, the handler reports the exception with status 500 and
    nothing is stored. *)
Theorem update_metadata_link_without_url :
  _can_update_did Sample.E Sample.stored
    (JStr "2020-01-02T00:00:00Z") (JStr Sample.alice) = true /\
  update_metadata Sample.E Sample.did Sample.registered Sample.two_links
  = (Reply (SomeError (KeyError (JStr "url"))) 500, Sample.registered).
Proof. split; vm_compute; reflexivity. Qed.

(** ** Requests that carry their required attributes *)

Lemma dict_mem_get d k v : Dict.get d k = Some v -> Dict.mem d k = true.
Proof. unfold Dict.mem. by intros ->. Qed.

Lemma check_required_present required data method :
  required <> [] ->
  Forall (fun k => exists v, py_getitem data k = Go v) required ->
  check_required_attributes required data method = Go tt.
Proof.
  intros Hne Hall. unfold check_required_attributes.
  destruct data as [| | | | | |d];
    try (destruct Hall as [|k ks [v Hv] _]; [done|by simpl in Hv]).
  destruct d as [|kv d].
  { destruct Hall as [|k ks [v Hv] _]; [done|by simpl in Hv]. }
  clear Hne. induction Hall as [|k ks [v Hv] _ IH]; [done|].
  apply getitem_dict in Hv as (d' & Hd' & Hv). simplify_eq.
  cbn [for_each]. rewrite (dict_mem_get _ _ _ Hv). exact IH.
Qed.

(** ** Paths through lists *)

Lemma set_path_str c p k v : forall o', set_path (JStr c) p k v <> Go o'.
Proof.
  revert c. induction p as [|s p IH]; intros c o'; simpl; [done|].
  destruct s as [k0|i]; simpl; [done|].
  destruct (Str.chars c !! i) as [c'|]; simpl; [|done].
  intros (child' & Hchild & _)%bind_Go. by apply IH in Hchild.
Qed.

Lemma get_with_child o s child child' p k v :
  py_get o s = Go child -> set_path child p k v = Go child' ->
  py_get (with_child o s child') s = Go child'.
Proof.
  intros Hget Hset. destruct s as [k0|i]; simpl in Hget.
  - apply getitem_dict in Hget as (d & -> & _). simpl.
    by rewrite dict_get_set_eq.
  - destruct o; simpl in Hget; try done.
    + destruct (Str.chars s !! i); simplify_eq. by apply set_path_str in Hset.
    + destruct (l !! i) eqn:Hl; simplify_eq. simpl.
      rewrite list_lookup_insert_eq; [done|]. by eapply lookup_lt_Some.
Qed.

(** A path read after an assignment at its end. *)
Lemma get_set_path o p k v o' :
  set_path o p k v = Go o' -> get_path o' (p ++ [Key k]) = Go v.
Proof.
  revert o o'. induction p as [|s p IH]; intros o o'; simpl.
  - intros (d & -> & ->)%setitem_dict. simpl. by rewrite dict_get_set_eq.
  - intros (child & Hget & (child' & Hset & Heq)%bind_Go)%bind_Go.
    simplify_eq. rewrite (get_with_child _ _ _ _ _ _ _ Hget Hset).
    cbn [mbind flow_bind]. by eapply IH.
Qed.

(** An assignment at the end of a path that can be read succeeds. *)
Lemma set_path_defined o p k v w :
  get_path o (p ++ [Key k]) = Go v -> exists o', set_path o p k w = Go o'.
Proof.
  revert o. induction p as [|s p IH]; intros o; simpl.
  - intros (child & (d & -> & _)%getitem_dict & _)%bind_Go. simpl. eauto.
  - intros (child & Hget & Hrest)%bind_Go. rewrite Hget. cbn [mbind flow_bind].
    destruct (IH _ Hrest) as [child' ->]. cbn [mbind flow_bind]. eauto.
Qed.

(** ** TransferOwnership *)

Lemma compare_eth_addresses_same a b :
  compare_eth_addresses a b = true <-> same_address a b.
Proof.
  unfold compare_eth_addresses, same_address. split.
  - destruct a, b; try done. intros H%String.eqb_eq. eauto.
  - intros (x & y & -> & -> & H). by apply String.eqb_eq.
Qed.

(** C6: an authorized TransferOwnership on a registered document is
    rejected, the store untouched, when [newOwner] is not a valid address
    and when it equals the current owner up to the case of its letters;
    otherwise it stores the document with [publicKey[0].owner] set to
    [newOwner] and [updated] set to the current time. *)
Theorem transfer_ownership_cases E did st rq doc signature updated newOwner owner :
  dao.get st did = Some doc ->
  py_getitem (payload rq) "signature" = Go signature ->
  py_getitem (payload rq) "updated" = Go updated ->
  py_getitem (payload rq) "newOwner" = Go newOwner ->
  _can_update_did E doc updated signature = true ->
  get_path doc owner_path = Go owner ->
  (Web3_isAddress E newOwner = false ->
   transfer_ownership E did st rq
   = (Reply (Text "New owner is not a valid address") 400, st)) /\
  (Web3_isAddress E newOwner = true -> same_address owner newOwner ->
   transfer_ownership E did st rq
   = (Reply (Text "New owner must be different than owner") 400, st)) /\
  (Web3_isAddress E newOwner = true -> ~ same_address owner newOwner ->
   exists doc',
     transfer_ownership E did st rq
     = (Reply (Text "Asset successfully transferred") 200,
        dao.update st doc' did) /\
     get_path doc' owner_path = Go newOwner /\
     py_getitem doc' "updated" = Go (JStr (now rq))).
Proof.
  intros Hdoc Hsig Hupd Hnew Hauth Howner.
  assert (Hreq : check_required_attributes ["signature"; "updated"; "newOwner"]
                   (payload rq) "transferownership" = Go tt).
  { apply check_required_present; [done|]. repeat constructor; eauto. }
  unfold transfer_ownership. rewrite Hreq. cbn [mbind flow_bind].
  rewrite Hnew. cbn [mbind flow_bind].
  split; [by intros ->|].
  assert (Hsame : same_address owner newOwner ->
            compare_eth_addresses owner newOwner = true)
    by apply compare_eth_addresses_same.
  assert (Hdiff : ~ same_address owner newOwner ->
            compare_eth_addresses owner newOwner = false).
  { intros Hn. destruct (compare_eth_addresses owner newOwner) eqn:Hc; [|done].
    by apply compare_eth_addresses_same in Hc. }
  split; intros Hvalid Hcase; rewrite Hvalid; cbn [negb];
    rewrite Hdoc, Hupd; cbn [mbind flow_bind];
    rewrite Hsig; cbn [mbind flow_bind]; rewrite Hauth; cbn [negb];
    fold owner_path; rewrite Howner; cbn [mbind flow_bind].
  - by rewrite (Hsame Hcase).
  - rewrite (Hdiff Hcase). cbn [mbind flow_bind].
    destruct (set_path_defined doc [Key "publicKey"; Idx 0%nat] "owner" owner newOwner)
      as [doc1 Hdoc1]; [exact Howner|].
    rewrite Hdoc1. cbn [mbind flow_bind].
    pose proof (get_set_path _ _ _ _ _ Hdoc1) as Hread.
    destruct (set_path_dict _ _ _ _ _ _ Hdoc1) as (d & c0 & c1 & -> & _ & _ & Hd1).
    subst doc1. cbn [py_setitem mbind flow_bind try_500 run].
    eexists. split; [reflexivity|]. split.
    + unfold owner_path. simpl in Hread |- *.
      rewrite dict_get_set_ne by done. exact Hread.
    + simpl. by rewrite dict_get_set_eq.
Qed.

Lemma transfer_ownership_cases_witness :
  (Web3_isAddress Sample.E (JStr Sample.bob) = false ->
   transfer_ownership Sample.E Sample.did Sample.registered Sample.transfer
   = (Reply (Text "New owner is not a valid address") 400, Sample.registered)) /\
  (Web3_isAddress Sample.E (JStr Sample.bob) = true ->
   same_address (JStr Sample.alice) (JStr Sample.bob) ->
   transfer_ownership Sample.E Sample.did Sample.registered Sample.transfer
   = (Reply (Text "New owner must be different than owner") 400,
      Sample.registered)) /\
  (Web3_isAddress Sample.E (JStr Sample.bob) = true ->
   ~ same_address (JStr Sample.alice) (JStr Sample.bob) ->
   exists doc',
     transfer_ownership Sample.E Sample.did Sample.registered Sample.transfer
     = (Reply (Text "Asset successfully transferred") 200,
        dao.update Sample.registered doc' Sample.did) /\
     get_path doc' owner_path = Go (JStr Sample.bob) /\
     py_getitem doc' "updated" = Go (JStr (now Sample.transfer))).
Proof.
  apply (transfer_ownership_cases Sample.E Sample.did Sample.registered
           Sample.transfer Sample.stored (JStr Sample.alice)
           (JStr "2020-01-02T00:00:00Z") (JStr Sample.bob) (JStr Sample.alice));
    vm_compute; reflexivity.
Defined.

(** ** The whitelist *)

Ltac fwd H := rewrite H; cbn [mbind flow_bind].

Lemma count_occ_str_app a l1 l2 :
  count_occ_str a (l1 ++ l2) = (count_occ_str a l1 + count_occ_str a l2)%nat.
Proof.
  induction l1 as [|x l1 IH]; simpl; [done|].
  destruct (py_eq_str x a); simpl; by rewrite IH.
Qed.

Lemma count_occ_str_self a : count_occ_str a [JStr a] = 1%nat.
Proof. simpl. by rewrite String.eqb_refl. Qed.

Lemma remove_first_appended a l :
  count_occ_str a l = 0%nat -> remove_first a (l ++ [JStr a]) = Some l.
Proof.
  induction l as [|x l IH]; simpl.
  - by rewrite String.eqb_refl.
  - destruct (py_eq_str x a); [done|]. intros H. by rewrite (IH H).
Qed.

Lemma owner_request_required E doc rq a method :
  owner_request E doc rq a ->
  check_required_attributes ["signature"; "updated"; "address"] (payload rq) method
  = Go tt.
Proof.
  intros (signature & updated & Hs & Hu & Ha & _).
  apply check_required_present; [done|]. repeat constructor; eauto.
Qed.

(** What WhitelistAdd answers to a request of the owner. *)
Lemma add_access_white_list_owner E did st rq doc a white_list :
  dao.get st did = Some doc ->
  py_getitem doc "accesssWhiteList" = Go (JList white_list) ->
  isAddress E a = true ->
  owner_request E doc rq a ->
  add_access_white_list E did st rq
  = if (0 <? count_occ_str a white_list)%nat
    then (Reply (Text "Address already in list") 400, st)
    else (Reply (Text "Address added.") 200,
          dao.update st (with_white_list doc (white_list ++ [JStr a]) (now rq)) did).
Proof.
  intros Hdoc Hwl Hvalid Hreq. unfold add_access_white_list.
  rewrite (owner_request_required _ _ _ _ _ Hreq). cbn [mbind flow_bind].
  destruct Hreq as (signature & updated & Hs & Hu & Ha & Hauth).
  fwd Ha. rewrite Hvalid. cbn [negb]. rewrite Hdoc. fwd Hu. fwd Hs.
  rewrite Hauth. cbn [negb]. fwd Hwl. cbn [py_count mbind flow_bind].
  destruct (0 <? count_occ_str a white_list)%nat; [done|].
  cbn [py_append mbind flow_bind].
  apply getitem_dict in Hwl as (d & -> & _). reflexivity.
Qed.

Lemma remove_first_none a l :
  remove_first a l = None <-> count_occ_str a l = 0%nat.
Proof.
  induction l as [|x l IH]; simpl; [done|].
  destruct (py_eq_str x a); [done|].
  destruct (remove_first a l); simpl; split; try done.
  - intros H. by apply IH in H.
  - intros H. by apply IH.
Qed.

(** What WhitelistRemove answers to a request of the owner. *)
Lemma delete_access_white_list_owner E did st rq doc a white_list :
  dao.get st did = Some doc ->
  py_getitem doc "accesssWhiteList" = Go (JList white_list) ->
  isAddress E a = true ->
  owner_request E doc rq a ->
  delete_access_white_list E did st rq
  = match remove_first a white_list with
    | Some rest =>
        (Reply (Text "Address removed.") 200,
         dao.update st (with_white_list doc rest (now rq)) did)
    | None => (Reply (Text "Address not in list") 400, st)
    end.
Proof.
  intros Hdoc Hwl Hvalid Hreq. unfold delete_access_white_list.
  rewrite (owner_request_required _ _ _ _ _ Hreq). cbn [mbind flow_bind].
  destruct Hreq as (signature & updated & Hs & Hu & Ha & Hauth).
  fwd Ha. rewrite Hvalid. cbn [negb]. rewrite Hdoc. fwd Hu. fwd Hs.
  rewrite Hauth. cbn [negb]. fwd Hwl. cbn [py_count mbind flow_bind].
  destruct (remove_first a white_list) as [rest|] eqn:Hrm.
  - assert (Hn : count_occ_str a white_list <> 0%nat).
    { intros H0. apply remove_first_none in H0. congruence. }
    destruct (count_occ_str a white_list) as [|n]; [done|].
    cbn [Nat.ltb Nat.leb]. unfold py_remove. rewrite Hrm.
    cbn [mbind flow_bind].
    apply getitem_dict in Hwl as (d & -> & _). reflexivity.
  - by rewrite (proj1 (remove_first_none _ _) Hrm).
Qed.

Lemma white_list_of_with doc white_list clock v :
  py_getitem doc "accesssWhiteList" = Go v ->
  py_getitem (with_white_list doc white_list clock) "accesssWhiteList"
  = Go (JList white_list).
Proof.
  intros (d & -> & _)%getitem_dict. simpl.
  rewrite dict_get_set_ne by done. by rewrite dict_get_set_eq.
Qed.

(** C7: for a registered document and an address that is not on its
    whitelist, the owner's WhitelistAdd puts it last; an owner's
    WhitelistRemove of the same address then leaves the whitelist it was
    before, and a second WhitelistAdd of it is answered [Address already in
    list] (400) and leaves the store, so the whitelist, as it is. *)
Theorem white_list_add_then_remove E did st rq doc a white_list :
  dao.get st did = Some doc ->
  py_getitem doc "accesssWhiteList" = Go (JList white_list) ->
  count_occ_str a white_list = 0%nat ->
  isAddress E a = true ->
  owner_request E doc rq a ->
  exists doc1,
    let st1 := dao.update st doc1 did in
    add_access_white_list E did st rq = (Reply (Text "Address added.") 200, st1) /\
    py_getitem doc1 "accesssWhiteList" = Go (JList (white_list ++ [JStr a])) /\
    (forall rq2, owner_request E doc1 rq2 a ->
       exists doc2,
         delete_access_white_list E did st1 rq2
         = (Reply (Text "Address removed.") 200, dao.update st1 doc2 did) /\
         py_getitem doc2 "accesssWhiteList" = Go (JList white_list)) /\
    (forall rq3, owner_request E doc1 rq3 a ->
       add_access_white_list E did st1 rq3
       = (Reply (Text "Address already in list") 400, st1)).
Proof.
  intros Hdoc Hwl Hfresh Hvalid Hreq.
  exists (with_white_list doc (white_list ++ [JStr a]) (now rq)). cbv zeta.
  pose proof (white_list_of_with doc (white_list ++ [JStr a]) (now rq) _ Hwl) as Hwl1.
  assert (Hdoc1 : forall st0 doc0, dao.get (dao.update st0 doc0 did) did = Some doc0).
  { intros. unfold dao.get, dao.update. apply lookup_insert_eq. }
  split; [|split; [done|split]].
  - rewrite (add_access_white_list_owner _ _ _ _ _ _ _ Hdoc Hwl Hvalid Hreq).
    by rewrite Hfresh.
  - intros rq2 Hreq2.
    rewrite (delete_access_white_list_owner _ _ _ _ _ _ _ (Hdoc1 _ _) Hwl1 Hvalid Hreq2).
    rewrite (remove_first_appended _ _ Hfresh).
    eexists. split; [done|]. by eapply white_list_of_with.
  - intros rq3 Hreq3.
    rewrite (add_access_white_list_owner _ _ _ _ _ _ _ (Hdoc1 _ _) Hwl1 Hvalid Hreq3).
    by rewrite count_occ_str_app, count_occ_str_self, Hfresh.
Qed.

Lemma white_list_add_then_remove_witness :
  exists doc1,
    let st1 := dao.update Sample.registered doc1 Sample.did in
    add_access_white_list Sample.E Sample.did Sample.registered Sample.invite
    = (Reply (Text "Address added.") 200, st1) /\
    py_getitem doc1 "accesssWhiteList" = Go (JList ([] ++ [JStr Sample.carol])) /\
    (forall rq2, owner_request Sample.E doc1 rq2 Sample.carol ->
       exists doc2,
         delete_access_white_list Sample.E Sample.did st1 rq2
         = (Reply (Text "Address removed.") 200, dao.update st1 doc2 Sample.did) /\
         py_getitem doc2 "accesssWhiteList" = Go (JList [])) /\
    (forall rq3, owner_request Sample.E doc1 rq3 Sample.carol ->
       add_access_white_list Sample.E Sample.did st1 rq3
       = (Reply (Text "Address already in list") 400, st1)).
Proof.
  apply (white_list_add_then_remove Sample.E Sample.did Sample.registered
           Sample.invite Sample.stored Sample.carol []).
  - vm_compute. reflexivity.
  - vm_compute. reflexivity.
  - reflexivity.
  - vm_compute. reflexivity.
  - exists (JStr Sample.alice), (JStr "2020-01-02T00:00:00Z").
    repeat split; vm_compute; reflexivity.
Defined.

(** ** RateUpdate *)

Lemma div_half_even_nearest num den :
  0 < den -> Z.abs (2 * num - 2 * Round.div_half_even num den * den) <= den.
Proof.
  intros Hden. unfold Round.div_half_even. cbv zeta.
  pose proof (Z.div_mod num den ltac:(lia)) as Hdm.
  pose proof (Z.mod_pos_bound num den Hden) as Hr.
  set (q := num / den) in *. set (r := num mod den) in *. clearbody q r.
  assert (Hq : 2 * num - 2 * q * den = 2 * r) by lia.
  assert (Hq1 : 2 * num - 2 * (q + 1) * den = 2 * r - 2 * den) by lia.
  destruct (2 * r ?= den) eqn:Hcmp.
  - apply Z.compare_eq in Hcmp.
    destruct (Z.even q); [rewrite Hq|rewrite Hq1]; apply Z.abs_le; lia.
  - pose proof (proj1 (Z.compare_lt_iff _ _) Hcmp) as Hlt.
    rewrite Hq. apply Z.abs_le; lia.
  - pose proof (proj1 (Z.compare_gt_iff _ _) Hcmp) as Hgt.
    rewrite Hq1. apply Z.abs_le; lia.
Qed.

Lemma tenths_nearest m e : nearest_tenths m e (Round.tenths m e).
Proof.
  unfold nearest_tenths, Round.tenths. destruct (0 <=? e) eqn:He.
  - apply Z.leb_le in He. rewrite (Z.max_l e 0), (Z.max_r (- e) 0) by lia.
    simpl (2 ^ 0). rewrite Z.mul_1_r, Z.sub_diag. done.
  - apply Z.leb_gt in He. rewrite (Z.max_r e 0), (Z.max_l (- e) 0) by lia.
    simpl (2 ^ 0). rewrite Z.mul_1_r.
    apply div_half_even_nearest. apply Z.pow_pos_nonneg; lia.
Qed.

(** [round(x, 1)] rounds to one decimal place. *)
Lemma round_rounded x r : Round.round x = Go r -> rounded_to_one_decimal x r.
Proof.
  destruct x as [|b|z|f| | |]; simpl; try done; intros H; simplify_eq; try done.
  destruct f as [s|s| |s m e]; try done.
  exists (Round.tenths m e). split; [apply tenths_nearest|done].
Qed.

(** A path through dictionaries keeps what lies beside an assignment. *)
Lemma get_set_path_beside o ks k v o' k' :
  set_path o (map Key ks) k v = Go o' -> k <> k' ->
  get_path o' (map Key ks ++ [Key k']) = get_path o (map Key ks ++ [Key k']).
Proof.
  revert o o'. induction ks as [|k0 ks IH]; intros o o'; simpl.
  - intros (d & -> & ->)%setitem_dict Hne. simpl. by rewrite dict_get_set_ne.
  - intros (child & Hget & (child' & Hset & Heq)%bind_Go)%bind_Go Hne.
    apply getitem_dict in Hget as (d & -> & Hget). simpl in Heq. simplify_eq.
    simpl. rewrite dict_get_set_eq, Hget. cbn [mbind flow_bind]. by eapply IH.
Qed.

Lemma rate_service_result data i service service' rating rounded numVotes :
  py_getitem data "rating" = Go rating ->
  Round.round rating = Go rounded ->
  py_getitem data "numVotes" = Go numVotes ->
  rate_service data i service = Go service' ->
  is_metadata service' = true ->
  get_path service' rating_path = Go rounded /\
  get_path service' votes_path = Go numVotes.
Proof.
  intros Hrating Hround Hvotes. unfold rate_service.
  intros (ty & Hty & H)%bind_Go Hmeta.
  destruct (py_eq_str ty "metadata") eqn:Hmd.
  - rewrite Hrating in H. cbn [mbind flow_bind] in H.
    rewrite Hround in H. cbn [mbind flow_bind] in H.
    apply bind_Go in H as (s1 & H1 & H).
    rewrite Hvotes in H. cbn [mbind flow_bind] in H.
    split.
    + change rating_path with (map Key ["attributes"; "curation"] ++ [Key "rating"]).
      rewrite (get_set_path_beside _ ["attributes"; "curation"] _ _ _ "rating" H) by done.
      by apply (get_set_path _ [Key "attributes"; Key "curation"]) in H1.
    + by apply (get_set_path _ [Key "attributes"; Key "curation"]) in H.
  - simplify_eq. unfold is_metadata in Hmeta. rewrite Hty, Hmd in Hmeta. done.
Qed.

(** A response with status 200 is the end of the handler. *)
Lemma run_ok st (m : flow (reply * store)) b st' :
  rets (fun r => status r <> Some 200) m ->
  run st m = (Reply b 200, st') -> m = Go (Reply b 200, st').
Proof.
  destruct m as [[r s]|r|e]; simpl; intros Hr H; simplify_eq; try done.
Qed.

Lemma straight_rate_service data i service : straight (rate_service data i service).
Proof. unfold rate_service. rets_go. Qed.

#[global] Hint Resolve straight_rate_service : rets.

(** What a RateUpdate that answers 200 has stored. *)
Lemma update_ratings_stored E did st rq b st' :
  update_ratings E did st rq = (Reply b 200, st') ->
  exists doc doc' rating rounded numVotes,
    dao.get st did = Some doc /\
    st' = dao.update st doc' did /\
    py_getitem (payload rq) "rating" = Go rating /\
    Round.round rating = Go rounded /\
    py_getitem (payload rq) "numVotes" = Go numVotes /\
    is_int numVotes = true /\
    (forall k, k <> "updated" -> k <> "service" ->
       py_getitem doc' k = py_getitem doc k) /\
    (forall services service,
       py_getitem doc' "service" = Go (JList services) ->
       In service services -> is_metadata service = true ->
       get_path service rating_path = Go rounded /\
       get_path service votes_path = Go numVotes).
Proof.
  unfold update_ratings. intros H. apply run_ok in H; [|rets_go].
  apply bind_Go in H as (? & _ & H).
  apply bind_Go in H as (rating & Hrating & H).
  destruct (negb (is_float rating) && negb (is_int rating)) eqn:Hnum; [done|].
  apply bind_Go in H as (numVotes & Hvotes & H).
  destruct (negb (is_int numVotes)) eqn:Hint; [done|].
  apply try_500_Go in H.
  destruct (dao.get st did) as [doc|] eqn:Hdoc; [|done].
  apply bind_Go in H as (updated & _ & H).
  apply bind_Go in H as (signature & _ & H).
  destruct (negb (_can_update_did_from_allowed_updaters E doc updated signature));
    [done|].
  apply bind_Go in H as (r1 & R1 & H).
  apply bind_Go in H as (services0 & S0 & H).
  apply bind_Go in H as (services1 & S1 & H).
  simplify_eq.
  assert (Hround : exists rounded, Round.round rating = Go rounded).
  { destruct rating; simpl in Hnum |- *; try done; eauto. }
  destruct Hround as [rounded Hround].
  destruct (setitem_dict _ _ _ _ R1) as (d & -> & ->).
  exists (JDict d). eexists. exists rating, rounded, numVotes.
  split; [done|]. split; [reflexivity|].
  repeat split; try done.
  - by apply negb_false_iff in Hint.
  - intros k Hu Hs. rewrite getitem_with_child.
    destruct (String.eqb "service" k) eqn:H1; [by apply String.eqb_eq in H1|].
    simpl. by rewrite dict_get_set_ne.
  - rewrite getitem_with_child in H. simpl in H. simplify_eq.
    assert (Hty : typed service).
    { unfold is_metadata in H1. destruct (py_getitem service "type") eqn:Hs; [|done..].
      by eexists. }
    destruct (rewrite_items_item _ _ _ _ _ S1 eq_refl H0 Hty) as (j & s0 & Hs0).
    by eapply rate_service_result.
  - rewrite getitem_with_child in H. simpl in H. simplify_eq.
    assert (Hty : typed service).
    { unfold is_metadata in H1. destruct (py_getitem service "type") eqn:Hs; [|done..].
      by eexists. }
    destruct (rewrite_items_item _ _ _ _ _ S1 eq_refl H0 Hty) as (j & s0 & Hs0).
    by eapply rate_service_result.
Qed.

(** ** The effect of the in-place operations on the store *)

Lemma run_cases st (m : flow (reply * store)) r st' :
  run st m = (r, st') -> m = Go (r, st') \/ st' = st.
Proof. destruct m as [[r0 s0]|r0|e]; simpl; intros H; simplify_eq; auto. Qed.

(** A handler that returns no 200 on the way answers 200 at its end only. *)
Lemma run_cases_ok st (m : flow (reply * store)) r st' :
  rets (fun r => status r <> Some 200) m ->
  run st m = (r, st') ->
  m = Go (r, st') \/ (st' = st /\ status r <> Some 200).
Proof.
  destruct m as [[r0 s0]|r0|e]; simpl; intros Hr H; simplify_eq; auto.
Qed.

Lemma straight_keep_links links new_links : straight (keep_links links new_links).
Proof.
  revert new_links. induction links as [|link links IH]; intros new_links; simpl;
    [done|].
  apply rets_bind; [auto with rets|]. intros name _.
  apply rets_bind; [|by intros]. rets_go.
Qed.

#[global] Hint Resolve straight_keep_links : rets.

Lemma straight_edit_metadata data service : straight (edit_metadata data service).
Proof. unfold edit_metadata. rets_go. Qed.

Lemma straight_edit_price index service price :
  straight (edit_price index service price).
Proof. unfold edit_price. rets_go. Qed.

#[global] Hint Resolve straight_edit_metadata straight_edit_price : rets.

Lemma straight_edit_service data index service :
  straight (edit_service data index service).
Proof. unfold edit_service, edit_prices. rets_go. Qed.

#[global] Hint Resolve straight_edit_service : rets.

(** The way back from the end of a handler through its binds and tests. *)
Ltac go_inv H :=
  repeat first
    [ apply try_500_Go in H
    | match type of H with
      | Go _ = Go _ => injection H as H
      | Ret _ = Go _ => discriminate H
      | Exc _ = Go _ => discriminate H
      | (_ ≫= _) = Go _ =>
          let x := fresh "x" in
          let Hx := fresh "Hx" in
          apply bind_Go in H as (x & Hx & H)
      | (if ?c then _ else _) = Go _ => destruct c eqn:?
      | (match ?m with _ => _ end) = Go _ => destruct m eqn:?
      end ].

Lemma agree_refl keys doc : agree_outside keys doc doc.
Proof. by intros k _. Qed.

Lemma agree_trans keys a b c :
  agree_outside keys a b -> agree_outside keys b c -> agree_outside keys a c.
Proof. intros Hab Hbc k Hk. by rewrite (Hbc k Hk), (Hab k Hk). Qed.

Lemma agree_setitem keys o k v o' :
  py_setitem o k v = Go o' -> In k keys -> agree_outside keys o o'.
Proof.
  intros H Hin k' Hk'. rewrite (getitem_setitem _ _ _ _ _ H).
  destruct (String.eqb k k') eqn:Heq; [|done].
  apply String.eqb_eq in Heq as ->. done.
Qed.

Lemma agree_set_path keys o k p k' v o' :
  set_path o (Key k :: p) k' v = Go o' -> In k keys -> agree_outside keys o o'.
Proof.
  intros H Hin k0 Hk0. eapply getitem_set_path_other; [done|].
  by intros ->.
Qed.

Lemma agree_with_child keys d k v :
  In k keys -> agree_outside keys (JDict d) (with_child (JDict d) (Key k) v).
Proof.
  intros Hin k' Hk'. rewrite getitem_with_child.
  destruct (String.eqb k k') eqn:Heq; [|done].
  apply String.eqb_eq in Heq as ->. done.
Qed.

Lemma agree_with_white_list doc white_list clock :
  agree_outside ["accesssWhiteList"; "updated"] doc
    (with_white_list doc white_list clock).
Proof.
  destruct doc; try apply agree_refl. intros k Hk. simpl.
  rewrite !dict_get_set.
  destruct (String.eqb "updated" k) eqn:H1.
  { apply String.eqb_eq in H1 as <-. exfalso. apply Hk. simpl. auto. }
  destruct (String.eqb "accesssWhiteList" k) eqn:H2; [|done].
  apply String.eqb_eq in H2 as <-. exfalso. apply Hk. simpl. auto.
Qed.

Lemma transfer_ownership_effect E did st rq r st' :
  transfer_ownership E did st rq = (r, st') ->
  (st' = st /\ status r <> Some 200) \/
  exists doc doc',
    dao.get st did = Some doc /\ st' = dao.update st doc' did /\
    status r = Some 200 /\
    agree_outside ["publicKey"; "updated"] doc doc'.
Proof.
  unfold transfer_ownership. intros H.
  apply run_cases_ok in H as [H|H]; [|by left|rets_go]. right.
  go_inv H. subst.
  match goal with
  | H1 : set_path ?j _ _ _ = Go ?a, H2 : py_setitem ?a _ _ = Go ?b |- _ =>
      exists j, b; repeat split; try done;
      eapply agree_trans;
        [eapply agree_set_path; [exact H1|simpl; auto]
        |eapply agree_setitem; [exact H2|simpl; auto]]
  end.
Qed.

Lemma update_ratings_effect E did st rq r st' :
  update_ratings E did st rq = (r, st') ->
  (st' = st /\ status r <> Some 200) \/
  exists doc doc',
    dao.get st did = Some doc /\ st' = dao.update st doc' did /\
    status r = Some 200 /\
    agree_outside ["service"; "updated"] doc doc'.
Proof.
  unfold update_ratings. intros H.
  apply run_cases_ok in H as [H|H]; [|by left|rets_go]. right.
  go_inv H. subst.
  match goal with
  | H1 : py_setitem ?j "updated" _ = Go ?a |- _ =>
      destruct (setitem_dict _ _ _ _ H1) as (d & -> & ->);
      eexists _, _; repeat split; try done;
      eapply agree_trans;
        [eapply agree_setitem; [exact H1|simpl; auto]
        |apply agree_with_child; simpl; auto]
  end.
Qed.

Lemma update_metadata_effect E did st rq r st' :
  update_metadata E did st rq = (r, st') ->
  (st' = st /\ status r <> Some 200) \/
  exists doc doc',
    dao.get st did = Some doc /\ st' = dao.update st doc' did /\
    status r = Some 200 /\
    agree_outside ["service"; "updated"] doc doc'.
Proof.
  unfold update_metadata. intros H.
  apply run_cases_ok in H as [H|H]; [|by left|rets_go]. right.
  go_inv H. subst.
  match goal with
  | H1 : py_setitem ?j "updated" _ = Go ?a |- _ =>
      destruct (setitem_dict _ _ _ _ H1) as (d & -> & ->);
      eexists _, _; repeat split; try done;
      eapply agree_trans;
        [eapply agree_setitem; [exact H1|simpl; auto]
        |apply agree_with_child; simpl; auto]
  end.
Qed.

Lemma add_access_white_list_effect E did st rq r st' :
  add_access_white_list E did st rq = (r, st') ->
  (st' = st /\ status r <> Some 200) \/
  exists doc white_list a,
    dao.get st did = Some doc /\
    py_getitem doc "accesssWhiteList" = Go (JList white_list) /\
    count_occ_str a white_list = 0%nat /\
    st' = dao.update st
            (with_white_list doc (white_list ++ [JStr a]) (now rq)) did /\
    status r = Some 200.
Proof.
  unfold add_access_white_list. intros H.
  apply run_cases_ok in H as [H|H]; [|by left|rets_go]. right.
  go_inv H. subst.
  match goal with
  | Hc : py_count ?w ?a = Go ?n, Ha : py_append ?w2 _ = Go _,
    Hz : (0 <? ?n)%nat = false,
    Hw : py_getitem ?j "accesssWhiteList" = Go ?w,
    Hw2 : py_getitem ?j "accesssWhiteList" = Go ?w2 |- _ =>
      rewrite Hw in Hw2; injection Hw2 as <-;
      destruct w; simpl in Ha, Hc; try discriminate;
      injection Ha as <-; injection Hc as <-;
      apply Nat.ltb_ge in Hz;
      apply getitem_dict in Hw as (d & -> & Hw);
      eexists (JDict d), _, a; repeat split; try done;
      [by apply getitem_of_dict | lia | ]
  end.
  match goal with
  | H2 : py_setitem _ "updated" _ = Go ?b |- _ =>
      simpl in H2; injection H2 as <-; reflexivity
  end.
Qed.

Lemma delete_access_white_list_effect E did st rq r st' :
  delete_access_white_list E did st rq = (r, st') ->
  (st' = st /\ status r <> Some 200) \/
  exists doc white_list rest a,
    dao.get st did = Some doc /\
    py_getitem doc "accesssWhiteList" = Go (JList white_list) /\
    remove_first a white_list = Some rest /\
    st' = dao.update st (with_white_list doc rest (now rq)) did /\
    status r = Some 200.
Proof.
  unfold delete_access_white_list. intros H.
  apply run_cases_ok in H as [H|H]; [|by left|rets_go]. right.
  go_inv H. subst.
  match goal with
  | Ha : py_remove ?w2 ?a = Go _,
    Hw : py_getitem ?j "accesssWhiteList" = Go ?w,
    Hw2 : py_getitem ?j "accesssWhiteList" = Go ?w2 |- _ =>
      rewrite Hw in Hw2; injection Hw2 as <-;
      destruct w; simpl in Ha; try discriminate;
      destruct (remove_first a l) as [rest|] eqn:Hrm; [|discriminate];
      injection Ha as <-;
      apply getitem_dict in Hw as (d & -> & Hw);
      eexists (JDict d), _, rest, a; repeat split; try done;
      [by apply getitem_of_dict | ]
  end.
  match goal with
  | H2 : py_setitem _ "updated" _ = Go ?b |- _ =>
      simpl in H2; injection H2 as <-; reflexivity
  end.
Qed.

Lemma retire_effect E did st rq r st' :
  retire E did st rq = (r, st') ->
  (st' = st /\ status r <> Some 200) \/
  exists doc,
    dao.get st did = Some doc /\ st' = dao.delete st did /\ status r = Some 200.
Proof.
  unfold retire. intros H.
  apply run_cases_ok in H as [H|H]; [|by left|rets_go]. right.
  go_inv H; subst; eauto.
Qed.

Lemma register_flow_Go E st rq r st' :
  register_flow E st rq = Go (r, st') ->
  exists did d,
    py_getitem (payload rq) "id" = Go (JStr did) /\
    st' = dao.update st (JDict d) did /\
    r = Reply (_sanitize_record (JDict d)) 201 /\
    py_getitem (JDict d) "accesssWhiteList"
    = Go (submitted_white_list (payload rq)).
Proof.
  intros H.
  unfold register_flow in H. cbv zeta in H. go_inv H. subst.
  rename x12 into r3, x17 into r5, x21 into id, x10 into r2, x11 into has_list.
  destruct id as [| | | |did| |]; simpl in Hx22; simplify_eq.
  destruct (getitem_dict _ _ _ Hx13) as (d3 & -> & Hd3).
  assert (Hwl : py_getitem r5 "accesssWhiteList"
                = Go (submitted_white_list (payload rq))).
  { rewrite (getitem_setitem _ _ _ _ _ Hx17), getitem_with_child.
    simpl String.eqb. cbv iota.
    set (lhs := py_getitem (JDict d3) "accesssWhiteList").
    assert (Hl : forall w, py_setitem r2 "accesssWhiteList" w = Go (JDict d3) ->
              lhs = Go w).
    { intros w Hw. unfold lhs.
      by rewrite (getitem_setitem _ _ _ _ _ Hw), String.eqb_refl. }
    clearbody lhs. unfold submitted_white_list.
    destruct (payload rq) as [| | | | | |d0] eqn:Hp; try done.
    simpl in Hx11. simplify_eq. unfold Dict.mem in Hx12.
    cbn [py_getitem] in Hx12. simpl.
    destruct (Dict.get d0 "accesssWhiteList") as [white_list|]; simpl in Hx12.
    - cbn [mbind flow_bind] in Hx12.
      destruct white_list; simpl in Hx12 |- *; by apply Hl.
    - by apply Hl. }
  destruct (setitem_dict _ _ _ _ Hx17) as (d4 & Hd4 & ->).
  exists did. eexists. split; [done|]. split; [reflexivity|]. by split.
Qed.

Lemma register_effect E st rq r st' :
  register E st rq = (r, st') ->
  st' = st \/
  exists did d,
    py_getitem (payload rq) "id" = Go (JStr did) /\
    st' = dao.update st (JDict d) did /\
    r = Reply (_sanitize_record (JDict d)) 201 /\
    py_getitem (JDict d) "accesssWhiteList"
    = Go (submitted_white_list (payload rq)).
Proof.
  unfold register. intros [H| ->]%run_cases; [|by left]. right.
  by apply (register_flow_Go E).
Qed.

(** What [update] leaves in the store. *)
Lemma update_effect E did st rq r st' :
  update E did st rq = (r, st') ->
  st' = st \/
  (status r = Some 201 /\ dao.get st did = None /\ st' = (register E st rq).2) \/
  (status r = Some 200 /\
   exists old record, dao.get st did = Some old /\
     st' = dao.update st record did /\
     agree_outside ["created"; "updated"; "service"] (payload rq) record).
Proof.
  unfold update. intros [H| ->]%run_cases; [|by left]. right.
  unfold update_flow in H.
  apply bind_Go in H as (? & _ & H).
  destruct (remote_caller (remote_addr rq)); [done|].
  apply update_local_record in H
    as (record & created & ts & _ & _ & _ & _ & Hagree & H).
  unfold update_write in H. apply try_500_Go in H.
  destruct (dao.get st did) as [old|].
  - right. apply bind_Go in H as (services & _ & H).
    apply bind_Go in H as (? & _ & H). simplify_eq.
    split; [done|]. exists old, record. repeat split; try done.
    intros k Hk. apply Hagree; intros ->; apply Hk; simpl; auto.
  - left. apply bind_Go in H as ([r0 st0] & Hcall & H). simplify_eq.
    split; [done|]. split; [done|].
    unfold register, run. unfold call in Hcall.
    destruct (register_flow E st rq) as [[r1 s1]|r1|e]; by simplify_eq.
Qed.

(** Every document [retire_all] leaves was there before. *)
Lemma delete_each_subset ids st r st' :
  delete_each ids st = (r, st') -> st' ⊆ st.
Proof.
  revert st. induction ids as [|id ids IH]; intros st; simpl.
  - intros ?; by simplify_eq.
  - destruct id; try (intros ?; by simplify_eq).
    intros H%IH. etrans; [exact H|]. unfold dao.delete. apply delete_subseteq.
Qed.

Lemma retire_all_effect st rq r st' :
  retire_all st rq = (r, st') -> st' ⊆ st.
Proof.
  unfold retire_all. destruct (remote_caller (remote_addr rq)).
  { intros ?; by simplify_eq. }
  destruct (map_each _ _) as [all_ids| |]; try (intros ?; by simplify_eq).
  apply delete_each_subset.
Qed.

(** ** What the operations leave untouched *)

Lemma in_place_effect E op did st rq r st' :
  in_place op = true -> target op = Some did ->
  handle E op st rq = (r, st') ->
  (st' = st /\ status r <> Some 200) \/
  exists doc doc',
    dao.get st did = Some doc /\ st' = dao.update st doc' did /\
    status r = Some 200 /\ agree_outside (touched op) doc doc'.
Proof.
  intros Hin Htarget H. destruct op; try done; simpl in Htarget, H; simplify_eq.
  - by apply transfer_ownership_effect in H.
  - by apply update_ratings_effect in H.
  - apply add_access_white_list_effect in H
      as [?|(doc & wl & a & Hdoc & _ & _ & -> & Hr)]; [by left|right].
    exists doc, (with_white_list doc (wl ++ [JStr a]) (now rq)).
    repeat split; try done. apply agree_with_white_list.
  - apply delete_access_white_list_effect in H
      as [?|(doc & wl & rest & a & Hdoc & _ & _ & -> & Hr)]; [by left|right].
    exists doc, (with_white_list doc rest (now rq)).
    repeat split; try done. apply agree_with_white_list.
  - by apply update_metadata_effect in H.
Qed.

(** X1: an operation other than RetireAll whose response has a status other
    than 200 and 201 has left the store as it was: no error path writes. *)
Theorem failed_operation_leaves_store E op st rq r st' :
  op <> RetireAll ->
  handle E op st rq = (r, st') ->
  status r <> Some 200 -> status r <> Some 201 ->
  st' = st.
Proof.
  intros Hop H H200 H201.
  destruct op; simpl in H; try done.
  - apply register_effect in H as [->|(did & d & _ & _ & -> & _)]; done.
  - apply update_effect in H as [->|[(Hs & _)|(Hs & _)]]; done.
  - apply transfer_ownership_effect in H as [[-> _]|(? & ? & _ & _ & Hs & _)]; done.
  - apply update_ratings_effect in H as [[-> _]|(? & ? & _ & _ & Hs & _)]; done.
  - apply add_access_white_list_effect in H
      as [[-> _]|(? & ? & ? & _ & _ & _ & _ & Hs)]; done.
  - apply delete_access_white_list_effect in H
      as [[-> _]|(? & ? & ? & ? & _ & _ & _ & _ & Hs)]; done.
  - apply update_metadata_effect in H as [[-> _]|(? & ? & _ & _ & Hs & _)]; done.
  - apply retire_effect in H as [[-> _]|(? & _ & _ & Hs)]; done.
Qed.

Lemma failed_operation_leaves_store_witness :
  (handle Sample.E (FullUpdate Sample.did) Sample.registered Sample.outsider).2
  = Sample.registered.
Proof.
  apply (failed_operation_leaves_store Sample.E (FullUpdate Sample.did)
           Sample.registered Sample.outsider
           (handle Sample.E (FullUpdate Sample.did) Sample.registered
              Sample.outsider).1).
  - discriminate.
  - vm_compute. reflexivity.
  - vm_compute. discriminate.
  - vm_compute. discriminate.
Defined.

(** X2: an in-place operation (TransferOwnership, RateUpdate, WhitelistAdd,
    WhitelistRemove, PartialMetadataUpdate) neither creates nor deletes a
    document, leaves the documents of the other DIDs as they are, and in
    the document of its DID assigns only the keys it is about. *)
Theorem in_place_operation_frame E op did st rq r st' :
  in_place op = true -> target op = Some did ->
  handle E op st rq = (r, st') ->
  (forall did', st' !! did' = None <-> st !! did' = None) /\
  (forall did' doc doc',
     st !! did' = Some doc -> st' !! did' = Some doc' ->
     (did' <> did -> doc' = doc) /\ agree_outside (touched op) doc doc').
Proof.
  intros Hin Htarget H.
  apply (in_place_effect _ _ did) in H
    as [[-> _]|(doc0 & doc1 & Hdoc & -> & _ & Hagree)]; try done.
  - split; [done|]. intros did' doc doc' H1 H2. simplify_eq.
    split; [done|apply agree_refl].
  - unfold dao.get, dao.update in *. split.
    + intros did'. destruct (decide (did = did')) as [<-|Hne].
      * rewrite lookup_insert_eq, Hdoc. done.
      * by rewrite lookup_insert_ne.
    + intros did' doc doc' H1 H2. destruct (decide (did = did')) as [<-|Hne].
      * rewrite lookup_insert_eq in H2. simplify_eq. done.
      * rewrite lookup_insert_ne in H2 by done. simplify_eq.
        split; [done|apply agree_refl].
Qed.

Lemma in_place_operation_frame_witness :
  (forall did',
     (handle Sample.E (WhitelistAdd Sample.did) Sample.registered Sample.invite).2
       !! did' = None <-> Sample.registered !! did' = None) /\
  (forall did' doc doc',
     Sample.registered !! did' = Some doc ->
     (handle Sample.E (WhitelistAdd Sample.did) Sample.registered Sample.invite).2
       !! did' = Some doc' ->
     (did' <> Sample.did -> doc' = doc) /\
     agree_outside (touched (WhitelistAdd Sample.did)) doc doc').
Proof.
  apply (in_place_operation_frame Sample.E (WhitelistAdd Sample.did) Sample.did
           Sample.registered Sample.invite
           (handle Sample.E (WhitelistAdd Sample.did) Sample.registered
              Sample.invite).1).
  - reflexivity.
  - reflexivity.
  - vm_compute. reflexivity.
Defined.

(** X3: on a DID that is not registered, an in-place operation and Retire
    never answer 200 and leave the store as it was: they create nothing. *)
Theorem unknown_did_is_left_alone E op did st rq r st' :
  in_place op = true \/ op = Retire did ->
  target op = Some did ->
  dao.get st did = None ->
  handle E op st rq = (r, st') ->
  st' = st /\ status r <> Some 200.
Proof.
  intros [Hin| ->] Htarget Hnone H.
  - apply (in_place_effect _ _ did) in H
      as [?|(doc0 & doc1 & Hdoc & _)]; try done. congruence.
  - simpl in H. apply retire_effect in H as [?|(doc0 & Hdoc & _)]; [done|].
    congruence.
Qed.

Lemma unknown_did_is_left_alone_witness :
  (handle Sample.E (RateUpdate Sample.did) ∅ (Sample.rate 5)).2 = ∅ /\
  status (handle Sample.E (RateUpdate Sample.did) ∅ (Sample.rate 5)).1
  <> Some 200.
Proof.
  apply (unknown_did_is_left_alone Sample.E (RateUpdate Sample.did) Sample.did
           ∅ (Sample.rate 5)).
  - left. reflexivity.
  - reflexivity.
  - reflexivity.
  - vm_compute. reflexivity.
Defined.

(** ** The whitelist invariant *)

Lemma count_occ_str_single a b :
  count_occ_str b [JStr a] = if String.eqb a b then 1%nat else 0%nat.
Proof. simpl. by destruct (String.eqb a b). Qed.

Lemma count_occ_str_present a b l :
  count_occ_str a l = 0%nat -> (count_occ_str b l <= 1)%nat ->
  (count_occ_str b (l ++ [JStr a]) <= 1)%nat.
Proof.
  intros Ha Hb. rewrite count_occ_str_app, count_occ_str_single.
  destruct (String.eqb a b) eqn:Heq; [|lia].
  apply String.eqb_eq in Heq as ->. lia.
Qed.

Lemma remove_first_count a b l rest :
  remove_first a l = Some rest -> (count_occ_str b rest <= count_occ_str b l)%nat.
Proof.
  revert rest. induction l as [|x l IH]; intros rest; simpl; [done|].
  destruct (py_eq_str x a).
  - intros ?; simplify_eq. destruct (py_eq_str x b); lia.
  - destruct (remove_first a l) as [rest'|]; [|done]. simpl.
    intros ?; simplify_eq. specialize (IH rest' eq_refl). simpl.
    destruct (py_eq_str x b); lia.
Qed.

Lemma white_list_unique_agree keys doc doc' :
  ~ In "accesssWhiteList" keys ->
  agree_outside keys doc doc' -> white_list_unique doc -> white_list_unique doc'.
Proof.
  intros Hk Hagree Hu wl a Hwl. rewrite (Hagree _ Hk) in Hwl. by eapply Hu.
Qed.

Lemma white_lists_unique_update st doc did :
  white_lists_unique st -> white_list_unique doc ->
  white_lists_unique (dao.update st doc did).
Proof.
  intros Hst Hdoc did' doc'. unfold dao.update.
  destruct (decide (did = did')) as [<-|Hne].
  - rewrite lookup_insert_eq. intros ?; by simplify_eq.
  - rewrite lookup_insert_ne by done. apply Hst.
Qed.

Lemma white_lists_unique_subset st st' :
  st' ⊆ st -> white_lists_unique st -> white_lists_unique st'.
Proof.
  intros Hsub Hst did doc Hdoc. apply (Hst did).
  by eapply lookup_weaken.
Qed.

(** X4: every operation other than Create and FullUpdate keeps the
    whitelists free of duplicates: when each stored document lists each
    address once at most before the operation, so it does after it. *)
Theorem white_lists_stay_unique E op st rq r st' :
  op <> Create -> (forall did, op <> FullUpdate did) ->
  white_lists_unique st ->
  handle E op st rq = (r, st') ->
  white_lists_unique st'.
Proof.
  intros Hc Hf Hst H. destruct op as [|did|did|did|did|did|did|did|];
    simpl in H; try done.
  - by destruct (Hf did).
  - apply transfer_ownership_effect in H
      as [[-> _]|(doc & doc' & Hdoc & -> & _ & Hagree)]; [done|].
    apply white_lists_unique_update; [done|].
    eapply white_list_unique_agree; [|exact Hagree|by eapply Hst].
    simpl. intros [?|[?|[]]]; done.
  - apply update_ratings_effect in H
      as [[-> _]|(doc & doc' & Hdoc & -> & _ & Hagree)]; [done|].
    apply white_lists_unique_update; [done|].
    eapply white_list_unique_agree; [|exact Hagree|by eapply Hst].
    simpl. intros [?|[?|[]]]; done.
  - apply add_access_white_list_effect in H
      as [[-> _]|(doc & wl & a & Hdoc & Hwl & Hfresh & -> & _)]; [done|].
    apply white_lists_unique_update; [done|].
    intros wl' b Hwl'. rewrite (white_list_of_with _ _ _ _ Hwl) in Hwl'.
    simplify_eq. apply count_occ_str_present; [done|].
    by eapply (Hst did doc).
  - apply delete_access_white_list_effect in H
      as [[-> _]|(doc & wl & rest & a & Hdoc & Hwl & Hrm & -> & _)]; [done|].
    apply white_lists_unique_update; [done|].
    intros wl' b Hwl'. rewrite (white_list_of_with _ _ _ _ Hwl) in Hwl'.
    simplify_eq. etrans; [by eapply remove_first_count|].
    by eapply (Hst did doc).
  - apply update_metadata_effect in H
      as [[-> _]|(doc & doc' & Hdoc & -> & _ & Hagree)]; [done|].
    apply white_lists_unique_update; [done|].
    eapply white_list_unique_agree; [|exact Hagree|by eapply Hst].
    simpl. intros [?|[?|[]]]; done.
  - apply retire_effect in H as [[-> _]|(doc & _ & -> & _)]; [done|].
    eapply white_lists_unique_subset; [|done]. apply delete_subseteq.
  - apply retire_all_effect in H. by eapply white_lists_unique_subset.
Qed.

Lemma sample_white_lists_unique : white_lists_unique Sample.registered.
Proof.
  intros did doc Hdoc wl a Hwl.
  destruct (decide (did = Sample.did)) as [->|Hne].
  - vm_compute in Hdoc. simplify_eq. vm_compute in Hwl. simplify_eq. simpl. lia.
  - unfold Sample.registered in Hdoc.
    assert (Heq : (register Sample.E ∅ Sample.creation).2
                  = <[Sample.did := Sample.stored]> ∅) by (vm_compute; reflexivity).
    rewrite Heq, lookup_insert_ne, lookup_empty in Hdoc; done.
Qed.

Lemma white_lists_stay_unique_witness :
  white_lists_unique
    (handle Sample.E (WhitelistAdd Sample.did) Sample.registered Sample.invite).2.
Proof.
  apply (white_lists_stay_unique Sample.E (WhitelistAdd Sample.did)
           Sample.registered Sample.invite
           (handle Sample.E (WhitelistAdd Sample.did) Sample.registered
              Sample.invite).1).
  - discriminate.
  - discriminate.
  - exact sample_white_lists_unique.
  - vm_compute. reflexivity.
Defined.

(** ** Create and the fall-back of FullUpdate *)

(** X5: a Create that answers 201 stores, under the payload's [id], a
    document whose whitelist is the list the payload submits, as it is, so
    with the duplicates it has, and the empty list when the payload has no
    [accesssWhiteList] or one that is not a list; the response carries the
    stored document. *)
Theorem register_stores_submitted_white_list E st rq b st' :
  register E st rq = (Reply b 201, st') ->
  exists did record,
    py_getitem (payload rq) "id" = Go (JStr did) /\
    st' !! did = Some record /\
    py_getitem record "accesssWhiteList"
    = Go (submitted_white_list (payload rq)) /\
    b = _sanitize_record record.
Proof.
  intros H%run_register_201.
  apply register_flow_Go in H as (did & d & Hid & -> & Hr & Hwl).
  exists did, (JDict d). split; [done|]. split.
  - unfold dao.update. apply lookup_insert_eq.
  - split; [done|]. by simplify_eq.
Qed.

Lemma register_stores_submitted_white_list_witness :
  exists did record,
    py_getitem (payload Sample.doubled) "id" = Go (JStr did) /\
    (register Sample.E ∅ Sample.doubled).2 !! did = Some record /\
    py_getitem record "accesssWhiteList"
    = Go (submitted_white_list (payload Sample.doubled)) /\
    match (register Sample.E ∅ Sample.doubled).1 with
    | Reply b _ => b
    | _ => Text ""
    end = _sanitize_record record.
Proof.
  apply (register_stores_submitted_white_list Sample.E ∅ Sample.doubled).
  vm_compute. reflexivity.
Defined.

(** X6: a FullUpdate answers 201 only for a DID that is not registered, and
    then the store is the one [register()] leaves for the same request:
    the document, if any was stored, is under the payload's [id], whatever
    the DID of the URL, and nothing is stored when [register()] refuses. *)
Theorem update_falls_back_to_register E did st rq b st' :
  update E did st rq = (Reply b 201, st') ->
  dao.get st did = None /\ st' = (register E st rq).2.
Proof.
  intros H. apply update_answer in H as [_ H]; [|done..].
  apply update_local_record in H
    as (record & created & ts & _ & _ & _ & _ & _ & H).
  unfold update_write in H. apply try_500_Go in H.
  destruct (dao.get st did) as [old|].
  - apply bind_Go in H as (services & _ & H).
    apply bind_Go in H as (? & _ & H). by simplify_eq.
  - split; [done|]. apply bind_Go in H as ([r0 st0] & Hcall & H). simplify_eq.
    unfold register, run. unfold call in Hcall.
    destruct (register_flow E st rq) as [[r1 s1]|r1|e]; by simplify_eq.
Qed.

Lemma update_falls_back_to_register_witness :
  dao.get ∅ "did:op:elsewhere" = None /\
  (update Sample.E "did:op:elsewhere" ∅ Sample.replacement).2
  = (register Sample.E ∅ Sample.replacement).2.
Proof.
  apply (update_falls_back_to_register Sample.E "did:op:elsewhere" ∅
           Sample.replacement
           (match (update Sample.E "did:op:elsewhere" ∅ Sample.replacement).1 with
            | Reply b _ => b
            | _ => Text ""
            end)).
  vm_compute. reflexivity.
Defined.

(** ** The authorization gate *)

(** X7: when the [updated] and [signature] of the payload do not authorize
    the caller as the owner of the registered document, the owner-gated
    operations answer [Not allowed to update this DID] with status 401 and
    leave the store as it was: PartialMetadataUpdate; WhitelistAdd and
    WhitelistRemove of a valid address; TransferOwnership to a valid
    address; Retire asked from elsewhere than the host. *)
Theorem unauthorized_caller_is_refused E did st rq doc updated signature :
  dao.get st did = Some doc ->
  py_getitem (payload rq) "updated" = Go updated ->
  py_getitem (payload rq) "signature" = Go signature ->
  _can_update_did E doc updated signature = false ->
  update_metadata E did st rq = (not_allowed, st) /\
  (forall a, py_getitem (payload rq) "address" = Go (JStr a) ->
     isAddress E a = true ->
     add_access_white_list E did st rq = (not_allowed, st) /\
     delete_access_white_list E did st rq = (not_allowed, st)) /\
  (forall newOwner, py_getitem (payload rq) "newOwner" = Go newOwner ->
     Web3_isAddress E newOwner = true ->
     transfer_ownership E did st rq = (not_allowed, st)) /\
  (remote_caller (remote_addr rq) = true ->
   retire E did st rq = (not_allowed, st)).
Proof.
  intros Hdoc Hupd Hsig Hauth.
  assert (Hreq : forall more method,
            Forall (fun k => exists v, py_getitem (payload rq) k = Go v) more ->
            check_required_attributes ("signature" :: "updated" :: more)
              (payload rq) method = Go tt).
  { intros more method Hmore. apply check_required_present; [done|].
    repeat constructor; eauto. }
  split; [|split; [|split]].
  - unfold update_metadata. rewrite (Hreq [] _) by constructor.
    cbn [mbind flow_bind]. rewrite Hdoc. fwd Hupd. fwd Hsig. by rewrite Hauth.
  - intros a Ha Hvalid. split.
    + unfold add_access_white_list. rewrite (Hreq ["address"] _)
        by (repeat constructor; eauto).
      cbn [mbind flow_bind]. fwd Ha. rewrite Hvalid. cbn [negb].
      rewrite Hdoc. fwd Hupd. fwd Hsig. by rewrite Hauth.
    + unfold delete_access_white_list. rewrite (Hreq ["address"] _)
        by (repeat constructor; eauto).
      cbn [mbind flow_bind]. fwd Ha. rewrite Hvalid. cbn [negb].
      rewrite Hdoc. fwd Hupd. fwd Hsig. by rewrite Hauth.
  - intros newOwner Hnew Hvalid. unfold transfer_ownership.
    rewrite (Hreq ["newOwner"] _) by (repeat constructor; eauto).
    cbn [mbind flow_bind]. fwd Hnew. rewrite Hvalid. cbn [negb].
    rewrite Hdoc. fwd Hupd. fwd Hsig. by rewrite Hauth.
  - intros Hremote. unfold retire. rewrite Hdoc, Hremote.
    rewrite (Hreq [] _) by constructor.
    cbn [mbind flow_bind]. fwd Hupd. fwd Hsig. by rewrite Hauth.
Qed.

Lemma unauthorized_caller_is_refused_witness :
  update_metadata Sample.E Sample.did Sample.registered Sample.intrusion
  = (not_allowed, Sample.registered) /\
  (forall a, py_getitem (payload Sample.intrusion) "address" = Go (JStr a) ->
     isAddress Sample.E a = true ->
     add_access_white_list Sample.E Sample.did Sample.registered Sample.intrusion
     = (not_allowed, Sample.registered) /\
     delete_access_white_list Sample.E Sample.did Sample.registered
       Sample.intrusion
     = (not_allowed, Sample.registered)) /\
  (forall newOwner,
     py_getitem (payload Sample.intrusion) "newOwner" = Go newOwner ->
     Web3_isAddress Sample.E newOwner = true ->
     transfer_ownership Sample.E Sample.did Sample.registered Sample.intrusion
     = (not_allowed, Sample.registered)) /\
  (remote_caller (remote_addr Sample.intrusion) = true ->
   retire Sample.E Sample.did Sample.registered Sample.intrusion
   = (not_allowed, Sample.registered)).
Proof.
  apply (unauthorized_caller_is_refused Sample.E Sample.did Sample.registered
           Sample.intrusion Sample.stored
           (JStr "2020-01-02T00:00:00Z") (JStr Sample.bob));
    vm_compute; reflexivity.
Defined.

(** ** RateUpdate *)

(** X8: a RateUpdate that answers 200 has replaced the document of its DID
    by one in which every [metadata] service carries, as curation rating,
    the submitted rating rounded to one decimal place, and, as [numVotes],
    the submitted integer, whatever the votes stored before. *)
Theorem rate_update_overwrites_curation E did st rq b st' :
  update_ratings E did st rq = (Reply b 200, st') ->
  exists doc' rating rounded numVotes,
    st' = dao.update st doc' did /\
    py_getitem (payload rq) "rating" = Go rating /\
    rounded_to_one_decimal rating rounded /\
    py_getitem (payload rq) "numVotes" = Go numVotes /\
    (forall services service,
       py_getitem doc' "service" = Go (JList services) ->
       In service services -> is_metadata service = true ->
       get_path service rating_path = Go rounded /\
       get_path service votes_path = Go numVotes).
Proof.
  intros H. apply update_ratings_stored in H
    as (doc & doc' & rating & rounded & numVotes & _ & -> & Hr & Hround & Hv
        & _ & _ & Hs).
  exists doc', rating, rounded, numVotes.
  repeat split; try done. by apply round_rounded.
  all: intros; by eapply Hs.
Qed.

Lemma rate_update_overwrites_curation_witness :
  exists doc' rating rounded numVotes,
    (update_ratings Sample.E Sample.did Sample.rated (Sample.rate 3)).2
    = dao.update Sample.rated doc' Sample.did /\
    py_getitem (payload (Sample.rate 3)) "rating" = Go rating /\
    rounded_to_one_decimal rating rounded /\
    py_getitem (payload (Sample.rate 3)) "numVotes" = Go numVotes /\
    (forall services service,
       py_getitem doc' "service" = Go (JList services) ->
       In service services -> is_metadata service = true ->
       get_path service rating_path = Go rounded /\
       get_path service votes_path = Go numVotes).
Proof.
  apply (rate_update_overwrites_curation Sample.E Sample.did Sample.rated
           (Sample.rate 3) (Text "Rating successfully updated")).
  vm_compute. reflexivity.
Defined.

(** ** WhitelistRemove *)



(** ** Retire and RetireAll *)

(** X10: a Retire that answers 200 has deleted the document of its DID and
    left every other document as it was; and asked from the host itself
    ([127.0.0.1] or [localhost]) for a registered DID, it deletes without
    reading the payload: no signature is required. *)
Theorem retire_deletes_one_document E did st rq :
  (forall b st', retire E did st rq = (Reply b 200, st') ->
     st' !! did = None /\
     forall did', did' <> did -> st' !! did' = st !! did') /\
  (forall doc, dao.get st did = Some doc ->
     remote_caller (remote_addr rq) = false ->
     retire E did st rq
     = (Reply (Text "Succesfully deleted") 200, dao.delete st did)).
Proof.
  split.
  - intros b st' H. apply retire_effect in H as [[_ Hs]|(doc & _ & -> & _)];
      [done|].
    unfold dao.delete. split; [apply lookup_delete_eq|].
    intros did' Hne. by apply lookup_delete_ne.
  - intros doc Hdoc Hlocal. unfold retire. by rewrite Hdoc, Hlocal.
Qed.

Lemma retire_deletes_one_document_witness :
  (retire Sample.E Sample.did Sample.registered Sample.withdrawal).2
    !! Sample.did = None /\
  forall did', did' <> Sample.did ->
    (retire Sample.E Sample.did Sample.registered Sample.withdrawal).2 !! did'
    = Sample.registered !! did'.
Proof.
  apply (proj1 (retire_deletes_one_document Sample.E Sample.did
                  Sample.registered Sample.withdrawal)
           (Text "Succesfully deleted")).
  vm_compute. reflexivity.
Defined.

Lemma delete_each_strings keys st :
  delete_each (map JStr keys) st
  = (Reply (Text "All ddo successfully deleted") 200,
     foldl (fun s k => dao.delete s k) st keys).
Proof.
  revert st. induction keys as [|k keys IH]; intros st; simpl; [done|].
  apply IH.
Qed.

Lemma lookup_foldl_delete (keys : list string) (st : store) (k : string) :
  foldl (fun s k => dao.delete s k) st keys !! k
  = if bool_decide (k ∈ keys) then None else st !! k.
Proof.
  revert st. induction keys as [|k0 keys IH]; intros st; cbn [foldl].
  - by rewrite bool_decide_eq_false_2 by set_solver.
  - rewrite IH. unfold dao.delete.
    destruct (decide (k = k0)) as [->|Hne].
    + rewrite lookup_delete_eq. rewrite (bool_decide_eq_true_2 (k0 ∈ k0 :: keys))
        by set_solver. by destruct (bool_decide _).
    + rewrite lookup_delete_ne by done.
      destruct (decide (k ∈ keys)) as [Hin|Hnin].
      * rewrite !bool_decide_eq_true_2 by set_solver. done.
      * rewrite (bool_decide_eq_false_2 (k ∈ k0 :: keys))
          by (intros [?|?]%elem_of_cons; done).
        by rewrite bool_decide_eq_false_2.
Qed.

Lemma map_each_ids (l : list (string * json)) :
  Forall (fun kv => py_getitem kv.2 "id" = Go (JStr kv.1)) l ->
  map_each (fun a => py_getitem a "id") (map snd l) = Go (map JStr (map fst l)).
Proof.
  induction 1 as [|[k doc] l Hk _ IH]; simpl; [done|].
  simpl in Hk. rewrite Hk. cbn [mbind flow_bind]. rewrite IH. done.
Qed.

(** X11: RetireAll never adds or alters a document: every document it
    leaves was there before.  Asked from elsewhere than the host it answers
    [You have no rights] (401) and deletes nothing; asked from the host,
    when the [id] of every stored document is the DID it is stored under,
    it answers 200 and leaves the store empty. *)
Theorem retire_all_deletes st rq :
  (forall r st', retire_all st rq = (r, st') -> st' ⊆ st) /\
  (remote_caller (remote_addr rq) = true -> retire_all st rq = (no_rights, st)) /\
  (remote_caller (remote_addr rq) = false ->
   (forall did doc, st !! did = Some doc -> py_getitem doc "id" = Go (JStr did)) ->
   retire_all st rq = (Reply (Text "All ddo successfully deleted") 200, ∅)).
Proof.
  split; [intros r st'; apply retire_all_effect|]. split.
  - intros Hremote. unfold retire_all. by rewrite Hremote.
  - intros Hlocal Hids. unfold retire_all, dao.get_all_assets. rewrite Hlocal.
    rewrite map_each_ids.
    2:{ apply List.Forall_forall. intros [k doc] Hin. simpl.
        apply Hids. apply elem_of_map_to_list. by apply list_elem_of_In. }
    rewrite delete_each_strings. f_equal. apply map_eq. intros k.
    rewrite lookup_foldl_delete, lookup_empty.
    destruct (st !! k) as [doc|] eqn:Hk; [|by destruct (bool_decide _)].
    rewrite bool_decide_eq_true_2; [done|].
    apply list_elem_of_fmap. exists (k, doc). split; [done|].
    by apply elem_of_map_to_list.
Qed.

Lemma retire_all_deletes_witness :
  retire_all Sample.registered (Sample.local JNull "2020-01-05T00:00:00Z")
  = (Reply (Text "All ddo successfully deleted") 200, ∅).
Proof.
  apply (proj2 (proj2 (retire_all_deletes Sample.registered
                         (Sample.local JNull "2020-01-05T00:00:00Z")))).
  - reflexivity.
  - intros did doc Hdoc.
    destruct (decide (did = Sample.did)) as [->|Hne].
    + vm_compute in Hdoc. injection Hdoc as <-. vm_compute. reflexivity.
    + exfalso. revert Hdoc. unfold Sample.registered.
      replace (register Sample.E ∅ Sample.creation).2
        with (<[Sample.did := Sample.stored]> (∅ : store))
        by (vm_compute; reflexivity).
      rewrite lookup_insert_ne, lookup_empty; done.
Defined.

(** ** PartialMetadataUpdate: the links *)

(** X12: the links kept by PartialMetadataUpdate.  When every submitted
    link has the keys [name], [url] and [type], the links kept are those
    whose three values are strings, in the order submitted.  A link whose
    [name] is a string and that has no [url], met after links that have
    the three keys, makes the lookup raise [KeyError('url')]. *)
Theorem keep_links_keeps_well_formed (links new_links : list json) :
  Forall keyed_link links ->
  keep_links links new_links
  = Go (new_links ++ List.filter well_formed_link links) /\
  (forall link after name,
     py_getitem link "name" = Go (JStr name) ->
     py_getitem link "url" = Exc (KeyError (JStr "url")) ->
     keep_links (links ++ link :: after) new_links
     = Exc (KeyError (JStr "url"))).
Proof.
  intros Hall. revert new_links.
  induction Hall as [|link links (name & url & ty & Hn & Hu & Ht) _ IH];
    intros new_links.
  - split; [by rewrite app_nil_r|]. intros link after name Hn Hu. simpl.
    rewrite Hn. cbn [mbind flow_bind is_str]. by rewrite Hu.
  - assert (Hstep : forall rest,
              keep_links (link :: rest) new_links
              = keep_links rest (if well_formed_link link
                                 then new_links ++ [link] else new_links)).
    { intros rest. cbn [keep_links]. unfold well_formed_link.
      rewrite Hn, Hu, Ht. cbn [mbind flow_bind].
      destruct (is_str name); cbn [mbind flow_bind andb]; [|done].
      destruct (is_str url); cbn [mbind flow_bind andb]; [|done].
      by destruct (is_str ty). }
    split.
    + rewrite Hstep. rewrite (proj1 (IH _)). cbn [List.filter].
      destruct (well_formed_link link); [|done]. by rewrite <- app_assoc.
    + intros l after nm Hnm Hurl. rewrite <- app_comm_cons, Hstep.
      by eapply (proj2 (IH _)).
Qed.

Lemma keep_links_keeps_well_formed_witness :
  keep_links [JDict [("name", JStr "x"); ("url", JStr "http://a");
                     ("type", JStr "sample")];
              JDict [("name", JInt 1); ("url", JStr "u"); ("type", JStr "t")]] []
  = Go ([] ++ List.filter well_formed_link
          [JDict [("name", JStr "x"); ("url", JStr "http://a");
                  ("type", JStr "sample")];
           JDict [("name", JInt 1); ("url", JStr "u"); ("type", JStr "t")]]) /\
  keep_links
    ([JDict [("name", JStr "x"); ("url", JStr "http://a");
             ("type", JStr "sample")];
      JDict [("name", JInt 1); ("url", JStr "u"); ("type", JStr "t")]]
     ++ JDict [("name", JStr "bad")] :: []) []
  = Exc (KeyError (JStr "url")).
Proof.
  assert (Hkeyed : Forall keyed_link
            [JDict [("name", JStr "x"); ("url", JStr "http://a");
                    ("type", JStr "sample")];
             JDict [("name", JInt 1); ("url", JStr "u"); ("type", JStr "t")]])
    by (repeat constructor; eexists _, _, _; repeat split; reflexivity).
  split.
  - apply (proj1 (keep_links_keeps_well_formed _ [] Hkeyed)).
  - apply (proj2 (keep_links_keeps_well_formed _ [] Hkeyed)
             (JDict [("name", JStr "bad")]) [] "bad"); reflexivity.
Defined.

(** ** ServiceOrderer, again *)

Lemma filter_filter_incl {A} (p q : A -> bool) (l : list A) :
  (forall x, p x = true -> q x = true) ->
  List.filter q (List.filter p l) = List.filter p l.
Proof.
  intros Hpq. induction l as [|x l IH]; simpl; [done|].
  destruct (p x) eqn:Hp; simpl; [|done]. by rewrite (Hpq x Hp), IH.
Qed.

Lemma filter_filter_excl {A} (p q : A -> bool) (l : list A) :
  (forall x, p x = true -> q x = false) ->
  List.filter q (List.filter p l) = [].
Proof.
  intros Hpq. induction l as [|x l IH]; simpl; [done|].
  destruct (p x) eqn:Hp; simpl; [|done]. by rewrite (Hpq x Hp), IH.
Qed.

Lemma first_metadata_filter (l : list json) :
  Forall typed l ->
  first_metadata l = Go (hd JNull (List.filter is_metadata l)).
Proof.
  induction 1 as [|s l [ty Hty] _ IH]; simpl; [done|].
  rewrite Hty. cbn [mbind flow_bind].
  rewrite (is_metadata_type _ _ Hty). by destruct (py_eq_str ty "metadata").
Qed.

(** X13: reordering is idempotent and loses nothing: when
    [_reorder_services] returns a list, reordering that list returns the
    same list, it has as many entries as the services visited, and
    [_get_metadata] finds in it the service it found before. *)
Theorem reorder_services_idempotent services result :
  _reorder_services services = Go result ->
  _reorder_services (JList result) = Go result /\
  _get_metadata (JList result) = _get_metadata services /\
  exists items, py_iter services = Go items /\ length result = length items.
Proof.
  intros (items & Hiter & Htyped & ->)%reorder_result.
  set (metas := List.filter is_metadata items).
  set (others := List.filter (fun s => negb (is_metadata s)) items).
  assert (Hty : Forall typed (metas ++ others)).
  { apply List.Forall_app. split; apply List.Forall_forall;
      intros s [Hs _]%List.filter_In; by eapply List.Forall_forall in Htyped. }
  assert (Hmetas : List.filter is_metadata (metas ++ others) = metas).
  { rewrite List.filter_app. unfold metas, others.
    rewrite filter_filter_incl by done.
    rewrite filter_filter_excl; [by rewrite app_nil_r|].
    intros x Hx. by apply negb_true_iff. }
  assert (Hothers : List.filter (fun s => negb (is_metadata s)) (metas ++ others)
                    = others).
  { rewrite List.filter_app. unfold metas, others.
    rewrite filter_filter_excl by (by intros x ->).
    by rewrite filter_filter_incl. }
  split; [|split].
  - by rewrite (reorder_typed _ Hty), Hmetas, Hothers.
  - unfold _get_metadata. rewrite Hiter. simpl py_iter. cbn [mbind flow_bind].
    by rewrite (first_metadata_filter _ Hty), (first_metadata_filter _ Htyped),
      Hmetas.
  - exists items. split; [done|]. rewrite length_app. unfold metas, others.
    clear. induction items as [|x items IH]; simpl; [done|].
    destruct (is_metadata x); simpl; lia.
Qed.

Lemma reorder_services_idempotent_witness :
  _reorder_services
    (JList [Sample.metadata_service []; Sample.access_service])
  = Go [Sample.metadata_service []; Sample.access_service] /\
  _get_metadata (JList [Sample.metadata_service []; Sample.access_service])
  = _get_metadata (JList [Sample.access_service; Sample.metadata_service []]) /\
  exists items,
    py_iter (JList [Sample.access_service; Sample.metadata_service []])
    = Go items /\
    length [Sample.metadata_service []; Sample.access_service] = length items.
Proof.
  apply (reorder_services_idempotent
           (JList [Sample.access_service; Sample.metadata_service []])
           [Sample.metadata_service []; Sample.access_service]).
  vm_compute. reflexivity.
Defined.

(** ** The checks of the payload *)

(** X14: [check_required_attributes] refuses, on a payload that is not a
    JSON object, with an assertion error; on the empty object, with
    [payload seems empty.] (400), even when nothing is required; on any
    other object, with the first required attribute, in the order of the
    list, that the object lacks (400); and it passes when none is
    lacking. *)
Theorem check_required_attributes_cases required data method :
  (is_dict data = false ->
   check_required_attributes required data method = Exc AssertionError) /\
  (data = JDict [] ->
   check_required_attributes required data method
   = Ret (Reply (Text "payload seems empty.") 400)) /\
  (forall d, data = JDict d -> d <> [] ->
     (Forall (fun k => Dict.mem d k = true) required ->
      check_required_attributes required data method = Go tt) /\
     (forall present attr rest,
        required = present ++ attr :: rest ->
        Forall (fun k => Dict.mem d k = true) present ->
        Dict.mem d attr = false ->
        check_required_attributes required data method
        = Ret (missing_attribute attr method))).
Proof.
  split; [|split].
  - by destruct data.
  - by intros ->.
  - intros d -> Hd. destruct d as [|kv d]; [done|].
    unfold check_required_attributes. split.
    + induction 1 as [|k ks Hk _ IH]; cbn [for_each]; [done|].
      rewrite Hk. exact IH.
    + intros present attr rest -> Hpresent Hattr.
      induction Hpresent as [|k ks Hk _ IH]; cbn [for_each app].
      * by rewrite Hattr.
      * rewrite Hk. exact IH.
Qed.

Lemma check_required_attributes_cases_witness :
  check_required_attributes ["signature"; "updated"]
    (JDict [("signature", JStr "s")]) "deleteasset"
  = Ret (missing_attribute "updated" "deleteasset").
Proof.
  refine (proj2 (proj2 (proj2 (check_required_attributes_cases
                                 ["signature"; "updated"]
                                 (JDict [("signature", JStr "s")]) "deleteasset"))
                   [("signature", JStr "s")] eq_refl _)
            ["signature"] "updated" [] eq_refl _ eq_refl).
  - discriminate.
  - repeat constructor.
Defined.

(** X15: [check_no_urls_in_files] on the main attributes of the metadata:
    without a [files] key it passes; with a list of file objects under
    [files] it passes when no file has a [url] key, and refuses with
    [url is not allowed in files] (400) when one has. *)
Theorem check_no_urls_in_files_cases main method :
  (py_contains "files" (JDict main) = Go false ->
   check_no_urls_in_files (JDict main) method = Go tt) /\
  (forall files,
     Dict.get main "files" = Some (JList files) ->
     Forall (fun file => is_dict file = true) files ->
     check_no_urls_in_files (JDict main) method
     = if existsb has_url files then Ret (url_in_files method) else Go tt).
Proof.
  unfold check_no_urls_in_files. split.
  - by intros ->.
  - intros files Hfiles Hdicts. simpl py_contains. unfold Dict.mem.
    rewrite Hfiles. cbn [mbind flow_bind]. simpl py_getitem. rewrite Hfiles.
    cbn [mbind flow_bind py_iter]. clear Hfiles.
    induction Hdicts as [|file files Hfile _ IH]; simpl; [done|].
    destruct file as [| | | | | |d]; try done. simpl.
    destruct (Dict.mem d "url"); [done|]. exact IH.
Qed.

Lemma check_no_urls_in_files_cases_witness :
  check_no_urls_in_files
    (JDict [("files", JList [JDict [("index", JInt 0)];
                             JDict [("url", JStr "http://x")]])]) "register"
  = if existsb has_url [JDict [("index", JInt 0)]; JDict [("url", JStr "http://x")]]
    then Ret (url_in_files "register") else Go tt.
Proof.
  apply (proj2 (check_no_urls_in_files_cases
                  [("files", JList [JDict [("index", JInt 0)];
                                    JDict [("url", JStr "http://x")]])]
                  "register")).
  - reflexivity.
  - repeat constructor.
Defined.

(** ** The readers *)

Lemma dict_remove_absent d k : Dict.mem d k = false -> Dict.remove d k = d.
Proof.
  unfold Dict.mem. induction d as [|[k' v] d IH]; simpl; [done|].
  destruct (String.eqb k' k); [done|]. intros H. by rewrite IH.
Qed.

(** On a dictionary the readers' sanitizing is [_sanitize_record]. *)
Lemma sanitize_any_dict d :
  sanitize_any (JDict d) = Go (_sanitize_record (JDict d)).
Proof.
  unfold sanitize_any. simpl.
  destruct (Dict.mem d "_id") eqn:Hmem; [done|].
  by rewrite (dict_remove_absent _ _ Hmem).
Qed.

(** X16: [get_ddo] answers 404 for a DID that is not registered; and after
    a Create that answered 201, [get_ddo] on the payload's [id] answers 200
    with the very body the Create returned. *)
Theorem get_ddo_reads_what_register_stored E st rq :
  (forall did, dao.get st did = None -> get_ddo did st = not_in_oceandb did) /\
  (forall b st' did,
     register E st rq = (Reply b 201, st') ->
     py_getitem (payload rq) "id" = Go (JStr did) ->
     get_ddo did st' = Reply b 200).
Proof.
  split.
  - intros did Hnone. unfold get_ddo, asset_record. by rewrite Hnone.
  - intros b st' did H%run_register_201 Hid.
    apply register_flow_Go in H as (did0 & d & Hid0 & -> & Hr & _).
    rewrite Hid in Hid0. simplify_eq.
    unfold get_ddo, asset_record, dao.get, dao.update.
    rewrite lookup_insert_eq. by rewrite sanitize_any_dict.
Qed.

Lemma get_ddo_reads_what_register_stored_witness :
  get_ddo Sample.did Sample.registered = Reply Sample.created_body 200.
Proof.
  apply (proj2 (get_ddo_reads_what_register_stored Sample.E ∅ Sample.creation)
           Sample.created_body Sample.registered Sample.did).
  - vm_compute. reflexivity.
  - vm_compute. reflexivity.
Defined.

(** X17: [get_metadata] answers with the first service of type [metadata]
    of the stored document, and with 404 when the DID is not registered or
    when the document, all of whose services have a type, has no such
    service. *)
Theorem get_metadata_reads_first_metadata did st :
  (dao.get st did = None -> get_metadata did st = not_in_oceandb did) /\
  (forall doc services,
     dao.get st did = Some doc ->
     py_getitem doc "service" = Go (JList services) ->
     Forall typed services ->
     get_metadata did st
     = match List.filter is_metadata services with
       | metadata :: _ => Reply (_sanitize_record metadata) 200
       | [] => not_in_oceandb did
       end).
Proof.
  unfold get_metadata, asset_record. split.
  - by intros ->.
  - intros doc services -> Hservices Htyped. rewrite Hservices.
    cbn [mbind flow_bind]. unfold _get_metadata. simpl py_iter.
    cbn [mbind flow_bind]. rewrite (first_metadata_filter _ Htyped).
    cbn [mbind flow_bind].
    destruct (List.filter is_metadata services) as [|m ms] eqn:Hf; [done|].
    assert (Hm : typed m).
    { eapply List.Forall_forall in Htyped; [done|].
      eapply (proj1 (List.filter_In is_metadata m services)).
      rewrite Hf. by left. }
    destruct Hm as [ty (d & -> & _)%getitem_dict]. cbn [hd].
    by rewrite sanitize_any_dict.
Qed.

Lemma get_metadata_reads_first_metadata_witness :
  get_metadata Sample.did
    (<[Sample.did :=
         JDict [("service", JList [Sample.access_service;
                                   Sample.metadata_service []])]]> ∅)
  = match List.filter is_metadata
            [Sample.access_service; Sample.metadata_service []] with
    | metadata :: _ => Reply (_sanitize_record metadata) 200
    | [] => not_in_oceandb Sample.did
    end.
Proof.
  apply (proj2 (get_metadata_reads_first_metadata Sample.did
                  (<[Sample.did :=
                       JDict [("service", JList [Sample.access_service;
                                                 Sample.metadata_service []])]]> ∅))
           (JDict [("service", JList [Sample.access_service;
                                      Sample.metadata_service []])])
           [Sample.access_service; Sample.metadata_service []]).
  - vm_compute. reflexivity.
  - reflexivity.
  - repeat constructor; eexists; reflexivity.
Defined.

(** ** FullUpdate replaces the document *)

(** X18: a FullUpdate that answers 200 replaces the document of its DID by
    the payload itself, but for [created], [updated] and [service]: every
    other top-level key of the stored document is the payload's, whatever
    the document stored before held, so the owner in [publicKey] and the
    whitelist are those the payload gives, and a key the payload lacks is
    lacking afterwards. *)
Theorem full_update_stores_the_payload E did st rq b st' :
  update E did st rq = (Reply b 200, st') ->
  exists old record,
    dao.get st did = Some old /\
    st' = dao.update st record did /\
    agree_outside ["created"; "updated"; "service"] (payload rq) record /\
    b = _sanitize_record record.
Proof.
  intros H. apply update_answer in H as [_ H]; [|done..].
  apply update_local_record in H
    as (record & created & ts & _ & _ & _ & _ & Hagree & H).
  apply update_write_Go in H as [[_ ?]|(old & Hold & Hr & ->)]; [done|].
  exists old, record. repeat split; try done.
  - intros k Hk. apply Hagree; intros ->; apply Hk; simpl; auto.
  - by simplify_eq.
Qed.

Lemma full_update_stores_the_payload_witness :
  exists old record,
    dao.get Sample.registered Sample.did = Some old /\
    Sample.replaced = dao.update Sample.registered record Sample.did /\
    agree_outside ["created"; "updated"; "service"]
      (payload Sample.replacement) record /\
    Sample.replaced_body = _sanitize_record record.
Proof.
  apply (full_update_stores_the_payload Sample.E Sample.did Sample.registered
           Sample.replacement Sample.replaced_body Sample.replaced).
  vm_compute. reflexivity.
Defined.
